(** * AccidentVisualizer (web_design/visualizer.py) in Rocq

    A shallow embedding of the label catalog, the type-pair dispatcher, the
    SQL text builders and the five chart routines of [AccidentVisualizer],
    followed by the properties of the dashboard's specification.

    Conventions.
    - A Python [str] is a [string] of its UTF-8 bytes.  Every operation the
      program applies to strings (equality, [split('.')], [replace] of a
      parenthesis, [in], concatenation) gives the same answer on the bytes
      as on the code points, because UTF-8 is self-synchronising.
    - A [dict] that is only looked up is a [gmap]; the class-level
      [COLUMN_CONFIG], whose [items()] are iterated in insertion order, is
      the ordered list of its items.
    - What lies outside the repository (the database behind the sqlalchemy
      engine, the date conversion of pandas, plotly's figure factory) is a
      [World] of oracles that may answer with an exception.  Logging, query execution and figure
      construction are recorded in a trace of [event]s. *)

From Stdlib Require Import Ascii String.
From stdpp Require Import base option list gmap strings pretty numbers sorting.

Open Scope string_scope.
Open Scope list_scope.

(** ** Python values the program handles *)

(** An instance of [Exception]: its class name and [str(e)]. *)
Inductive exn : Type :=
| Exn (cls : string) (msg : string).

Definition exn_str (e : exn) : string :=
  match e with Exn _ msg => msg end.

(** A cell of a fetched row. [VTime y m] is the timestamp of the first day
    of month [m] of year [y]; [VNull] is NULL / NaT. *)
Inductive cell : Type :=
| VStr (s : string)
| VInt (z : Z)
| VNull
| VTime (year month : Z).

(** [pandas.DataFrame]: column names and positional rows. *)
Record DataFrame : Type := mkDataFrame {
  columns : list string;
  rows : list (list cell)
}.

(** [len(df)] *)
Definition df_len (df : DataFrame) : nat := length (rows df).

(** [df.empty]: some axis has length 0. *)
Definition df_empty (df : DataFrame) : bool :=
  bool_decide (length (rows df) = 0%nat) || bool_decide (length (columns df) = 0%nat).

Inductive chart_kind : Type := PxBar | PxLine | PxScatter.

(** The keyword arguments of one [plotly.express] call (absent keywords
    are [None] / [false] / the empty list). Dict literals keep the order
    in which they are written. *)
Record px_call : Type := mkPx {
  px_fn : chart_kind;
  px_data : DataFrame;
  px_x : string;
  px_y : string;
  px_color : option string;
  px_size : option string;
  px_hover_data : list (string * bool);
  px_size_max : option Z;
  px_barmode : option string;
  px_markers : bool;
  px_title : string;
  px_labels : list (string * string)
}.

(** A figure: the call that built it and the axis settings applied later by
    [update_xaxes] / [update_yaxes]. *)
Record Figure : Type := mkFigure {
  fig_call : px_call;
  xaxis_type : option string;
  xaxis_dtick : option Z;
  yaxis_dtick : option Z
}.

Definition new_figure (c : px_call) : Figure :=
  {| fig_call := c; xaxis_type := None; xaxis_dtick := None; yaxis_dtick := None |}.

Definition update_xaxes_type (ty : string) (f : Figure) : Figure :=
  {| fig_call := fig_call f; xaxis_type := Some ty;
     xaxis_dtick := xaxis_dtick f; yaxis_dtick := yaxis_dtick f |}.

Definition update_xaxes_dtick (d : Z) (f : Figure) : Figure :=
  {| fig_call := fig_call f; xaxis_type := xaxis_type f;
     xaxis_dtick := Some d; yaxis_dtick := yaxis_dtick f |}.

Definition update_yaxes_dtick (d : Z) (f : Figure) : Figure :=
  {| fig_call := fig_call f; xaxis_type := xaxis_type f;
     xaxis_dtick := xaxis_dtick f; yaxis_dtick := Some d |}.

(** What [generate_visualization] and the chart routines return:
    [(fig, title)] or [(None, message)]. *)
Definition ChartResult : Type := option Figure * string.

(** ** Effects: a trace of events and a raised exception *)

Inductive level : Type := INFO | WARNING | ERROR.

Inductive event : Type :=
| Log (lv : level) (msg : string)
| ExecSQL (query : string)
| Plot (fn : chart_kind).

(** A computation yields the events it performed, in order, and either the
    exception it raised or the value it returned. *)
Definition M (A : Type) : Type := list event * (exn + A).

Global Instance M_ret : MRet M := λ A a, ([], inr a).

Definition raise {A} (e : exn) : M A := ([], inl e).

Global Instance M_bind : MBind M := λ A B k m,
  match m with
  | (t, inl e) => (t, inl e)
  | (t, inr a) => let '(t', r) := k a in (t ++ t', r)
  end.

(** [try: m  except Exception as e: h e] *)
Definition try_except {A} (m : M A) (h : exn → M A) : M A :=
  match m with
  | (t, inl e) => let '(t', r) := h e in (t ++ t', r)
  | (t, inr a) => (t, inr a)
  end.

Definition emit (ev : event) : M unit := ([ev], inr tt).

(** [logging.info], [logging.warning], [logging.error] *)
Definition logging_info (msg : string) : M unit := emit (Log INFO msg).
Definition logging_warning (msg : string) : M unit := emit (Log WARNING msg).
Definition logging_error (msg : string) : M unit := emit (Log ERROR msg).

(** The SQL texts a trace sent to the store, and the plotly calls it made. *)
Definition queries (t : list event) : list string :=
  omap (λ ev, match ev with ExecSQL q => Some q | _ => None end) t.

Definition plots (t : list event) : list chart_kind :=
  omap (λ ev, match ev with Plot k => Some k | _ => None end) t.

Definition warnings (t : list event) : list string :=
  omap (λ ev, match ev with Log WARNING m => Some m | _ => None end) t.

(** ** String operations of the Python source *)

(** [s.split(sep)] for a one-character separator. *)
Fixpoint str_split (sep : ascii) (s : string) : list string :=
  match s with
  | EmptyString => [EmptyString]
  | String c r =>
      if Ascii.eqb c sep then EmptyString :: str_split sep r
      else match str_split sep r with
           | h :: t => String c h :: t
           | [] => [String c EmptyString]
           end
  end.

(** [sub in s] *)
Fixpoint str_contains (sub s : string) : bool :=
  String.prefix sub s ||
  match s with
  | EmptyString => false
  | String _ r => str_contains sub r
  end.

(** [s.replace(c, '')] for a one-character [c]. *)
Fixpoint str_remove (c : ascii) (s : string) : string :=
  match s with
  | EmptyString => EmptyString
  | String a r => if Ascii.eqb a c then str_remove c r else String a (str_remove c r)
  end.

(** [a, b = parts] *)
Definition unpack2 (parts : list string) : M (string * string) :=
  match parts with
  | [a; b] => mret (a, b)
  | [] | [_] =>
      raise (Exn "ValueError"
               ("not enough values to unpack (expected 2, got "
                  +:+ pretty (length parts) +:+ ")"))
  | _ => raise (Exn "ValueError" "too many values to unpack (expected 2)")
  end.

(** [parts[1]] *)
Definition subscript1 (parts : list string) : M string :=
  match parts with
  | _ :: b :: _ => mret b
  | _ => raise (Exn "IndexError" "list index out of range")
  end.

(** [v.split('.')] on a value that may be [None]. *)
Definition opt_split_dot (v : option string) : M (list string) :=
  match v with
  | Some s => mret (str_split "." s)
  | None => raise (Exn "AttributeError" "'NoneType' object has no attribute 'split'")
  end.

(** Truthiness of an optional string: [None] and [''] are falsy. *)
Definition truthy (v : option string) : option string :=
  match v with
  | Some s => if String.eqb s "" then None else Some s
  | None => None
  end.

(** ** The field catalog *)

(** One value of [COLUMN_CONFIG]: the dict with keys ['type'] and
    ['label']. *)
Record column_info : Type := mkInfo {
  info_type : string;
  info_label : string
}.

(** The class attribute [COLUMN_CONFIG], as its items in insertion order. *)
Definition COLUMN_CONFIG : list (string * column_info) :=
  [ ("ACCIDENT.DayNight", mkInfo "범주형" "주야");
    ("ACCIDENT.AccidentType", mkInfo "범주형" "사고유형");
    ("ACCIDENT.LawViolationYn", mkInfo "범주형" "법규위반 여부");
    ("ACCIDENT.RoadSurfaceState", mkInfo "범주형" "노면상태");
    ("ACCIDENT.WeatherState", mkInfo "범주형" "기상상태");
    ("ACCIDENT.RoadForm", mkInfo "범주형" "도로형태");
    ("REGION.RegionName", mkInfo "범주형" "지역명 (시군구)");
    ("DRIVER.Role", mkInfo "범주형" "운전자 구분 (가해/피해)");
    ("DRIVER.VehicleType", mkInfo "범주형" "운전자 차종");
    ("DRIVER.Gender", mkInfo "범주형" "운전자 성별");
    ("DRIVER.AgeGroup", mkInfo "범주형" "운전자 연령대");
    ("DRIVER.InjuryLevel", mkInfo "범주형" "운전자 상해정도");
    ("ACCIDENT.DeathCount", mkInfo "수치형" "사망자수");
    ("ACCIDENT.SevereInjuryCount", mkInfo "수치형" "중상자수");
    ("ACCIDENT.MinorInjuryCount", mkInfo "수치형" "경상자수");
    ("ACCIDENT.ReportedInjuryCount", mkInfo "수치형" "부상신고자수");
    ("ACCIDENT.(사고건수)", mkInfo "수치형" "사고건수");
    ("ACCIDENT.OccurYearMonth", mkInfo "시간형" "발생년월") ].

(** [COLUMN_CONFIG.get(k)] *)
Fixpoint config_get (k : string) (items : list (string * column_info)) : option column_info :=
  match items with
  | [] => None
  | (k', v) :: rest => if String.eqb k' k then Some v else config_get k rest
  end.

(** A dict comprehension [{key: value for ...}]: the pairs are inserted in
    order, a later pair replacing an earlier one with the same key. *)
Definition dict_setitem (d : gmap string string) (kv : string * string)
  : gmap string string := <[kv.1 := kv.2]> d.

Definition dict_of (pairs : list (string * string)) : gmap string string :=
  foldl dict_setitem ∅ pairs.

(** [self.LABEL_TO_INTERNAL], built by [__init__]:
    [{v['label']: k for k, v in self.COLUMN_CONFIG.items()}] *)
Definition LABEL_TO_INTERNAL : gmap string string :=
  dict_of (map (λ kv, (info_label kv.2, kv.1)) COLUMN_CONFIG).

(** [_get_internal_name]: [self.LABEL_TO_INTERNAL.get(label)] *)
Definition _get_internal_name (label : string) : option string :=
  LABEL_TO_INTERNAL !! label.

(** [_get_column_type]:
    [self.COLUMN_CONFIG.get(internal_name, {}).get('type', '알 수 없음')] *)
Definition _get_column_type (internal_name : string) : string :=
  match config_get internal_name COLUMN_CONFIG with
  | Some info => info_type info
  | None => "알 수 없음"
  end.

(** ** Data frames and the temporal conversion *)

(** The positions of the columns called [name]. *)
Fixpoint positions (name : string) (cols : list string) (i : nat) : list nat :=
  match cols with
  | [] => []
  | c :: rest =>
      if String.eqb c name then i :: positions name rest (S i)
      else positions name rest (S i)
  end.

(** The values of the column at position [i], row by row. *)
Definition column_values (df : DataFrame) (i : nat) : list cell :=
  map (λ row, default VNull (row !! i)) (rows df).

(** [df[name]] is a Series when exactly one column has that name, a frame
    when several have it, and raises [KeyError] when none has. *)
Inductive df_item : Type :=
| ItemSeries (pos : nat) (vals : list cell)
| ItemFrame (poss : list nat).

Definition df_getitem (df : DataFrame) (name : string) : M df_item :=
  match positions name (columns df) 0 with
  | [] => raise (Exn "KeyError" ("'" +:+ name +:+ "'"))
  | [i] => mret (ItemSeries i (column_values df i))
  | poss => mret (ItemFrame poss)
  end.

(** [df[name] = series] for the column at position [i]: the assignment of
    a Series aligns on the index, so row [k] takes the [k]-th value and a
    row without one takes a missing value. *)
Definition df_setitem (df : DataFrame) (i : nat) (vals : list cell) : DataFrame :=
  {| columns := columns df;
     rows := imap (λ k row, <[i := default VNull (vals !! k)]> row) (rows df) |}.

(** ** The world outside the repository *)

(** [read_sql q] is what [engine.connect()] followed by
    [pd.read_sql(text(q), conn)] does: the fetched frame, or the exception
    either call raises.  [px_fault c] is the exception, if any, that the
    [plotly.express] call [c] raises.  [to_datetime fmt vals] is what
    [pd.to_datetime(series, format=fmt)] does on a Series holding [vals]:
    the converted values, position by position, or the exception it
    raises. *)
Record World : Type := mkWorld {
  read_sql : string → exn + DataFrame;
  px_fault : px_call → option exn;
  to_datetime : string → list cell → exn + list cell
}.

Section Visualizer.

Context (W : World).

(** [with self.engine.connect() as conn: df = pd.read_sql(text(query), conn)] *)
Definition execute (query : string) : M DataFrame :=
  emit (ExecSQL query);;
  match read_sql W query with
  | inl e => raise e
  | inr df => mret df
  end.

(** [px.bar(...)], [px.line(...)], [px.scatter(...)] *)
Definition px (c : px_call) : M Figure :=
  emit (Plot (px_fn c));;
  match px_fault W c with
  | Some e => raise e
  | None => mret (new_figure c)
  end.

(** [pd.to_datetime(item, format='%Y%m')]; a frame argument, several
    columns of one name, cannot be assembled into dates. *)
Definition pd_to_datetime (item : df_item) : M (nat * list cell) :=
  match item with
  | ItemSeries i vals =>
      match to_datetime W "%Y%m" vals with
      | inl e => raise e
      | inr vals' => mret (i, vals')
      end
  | ItemFrame _ => raise (Exn "ValueError" "cannot assemble with duplicate keys")
  end.

(** The statement [df[name] = pd.to_datetime(df[name], format='%Y%m')]. *)
Definition convert_time_column (df : DataFrame) (name : string) : M DataFrame :=
  item ← df_getitem df name;
  '(i, vals) ← pd_to_datetime item;
  mret (df_setitem df i vals).

Definition _fetch_data (query : string) : M DataFrame :=
  logging_info ("Executing SQL: " +:+ query);;
  df ← execute query;
  logging_info ("Data fetched: " +:+ pretty (df_len df) +:+ " rows");;
  mret df.

Definition _build_query_components (var1 var2 : string) (agg_func : option string)
  : M (string * string * string * string * string) :=
  '(table1, col1) ← unpack2 (str_split "." var1);
  '(table2, col2) ← unpack2 (str_split "." var2);
  let tables_needed : gset string := list_to_set ["ACCIDENT"; table1; table2] in
  let from_clause := "FROM ACCIDENT" in
  let join_clause := "" in
  let join_clause :=
    if bool_decide ("DRIVER" ∈ tables_needed)
    then join_clause +:+ " JOIN DRIVER ON ACCIDENT.AccidentID = DRIVER.AccidentID"
    else join_clause in
  let join_clause :=
    if bool_decide ("REGION" ∈ tables_needed)
    then join_clause +:+ " JOIN REGION ON ACCIDENT.RegionCode = REGION.RegionCode"
    else join_clause in
  match truthy agg_func with
  | Some agg_func =>
      let select_col2 :=
        if String.eqb col2 "(사고건수)" then "COUNT(ACCIDENT.AccidentID)"
        else
          let safe_col2 := str_remove ")" (str_remove "(" col2) in
          agg_func +:+ "(" +:+ table2 +:+ "." +:+ safe_col2 +:+ ")" in
      let select_clause :=
        "SELECT " +:+ table1 +:+ "." +:+ col1 +:+ ", " +:+ select_col2 +:+ " AS Value" in
      let group_by_clause := "GROUP BY " +:+ table1 +:+ "." +:+ col1 in
      let order_by_clause := "ORDER BY " +:+ table1 +:+ "." +:+ col1 in
      mret (select_clause, from_clause, join_clause, group_by_clause, order_by_clause)
  | None =>
      let select_clause :=
        "SELECT " +:+ table1 +:+ "." +:+ col1 +:+ ", " +:+ table2 +:+ "." +:+ col2 in
      let group_by_clause := "" in
      let order_by_clause := "" in
      mret (select_clause, from_clause, join_clause, group_by_clause, order_by_clause)
  end.

(** Case 1: vertical bar chart (categorical vs numeric). *)
Definition _create_bar_chart (cat_var num_var cat_label num_label : string)
  : M ChartResult :=
  let title := "'" +:+ cat_label +:+ "' 별 '" +:+ num_label +:+ "' (상위 20개)" in
  let agg_func := if str_contains "(사고건수)" num_var then "COUNT" else "SUM" in
  '(sel, frm, jn, grp, _) ← _build_query_components cat_var num_var (Some agg_func);
  let query :=
    sel +:+ " " +:+ frm +:+ " " +:+ jn +:+ " " +:+ grp
        +:+ " ORDER BY Value DESC LIMIT 20" in
  df ← _fetch_data query;
  col1_name ← subscript1 (str_split "." cat_var);
  fig ← px {| px_fn := PxBar; px_data := df; px_x := col1_name; px_y := "Value";
              px_color := None; px_size := None; px_hover_data := [];
              px_size_max := None; px_barmode := None; px_markers := false;
              px_title := title;
              px_labels := [(col1_name, cat_label); ("Value", num_label)] |};
  let fig := update_xaxes_type "category" fig in
  mret (Some fig, title).

(** The [except] branch of the temporal conversion: warn and go on. *)
Definition time_conversion_warning (e : exn) : string :=
  "시간 변환 오류: " +:+ exn_str e
    +:+ ". 'OccurYearMonth' 형식이 'YYYYMM'이 아닐 수 있습니다.".

(** Case 2: line chart (temporal vs numeric). *)
Definition _create_line_chart (time_var num_var time_label num_label : string)
  : M ChartResult :=
  let title := "'" +:+ time_label +:+ "' 별 '" +:+ num_label +:+ "' 추이" in
  let agg_func := if str_contains "(사고건수)" num_var then "COUNT" else "SUM" in
  '(sel, frm, jn, grp, odr) ← _build_query_components time_var num_var (Some agg_func);
  let query := sel +:+ " " +:+ frm +:+ " " +:+ jn +:+ " " +:+ grp +:+ " " +:+ odr in
  df ← _fetch_data query;
  col1_name ← subscript1 (str_split "." time_var);
  df ← try_except (convert_time_column df col1_name)
         (λ e, logging_warning (time_conversion_warning e);; mret df);
  fig ← px {| px_fn := PxLine; px_data := df; px_x := col1_name; px_y := "Value";
              px_color := None; px_size := None; px_hover_data := [];
              px_size_max := None; px_barmode := None; px_markers := true;
              px_title := title;
              px_labels := [(col1_name, time_label); ("Value", num_label)] |};
  mret (Some fig, title).

(** Case 3: grouped bar chart (categorical vs categorical). *)
Definition _create_grouped_bar_chart (var1 var2 : string) (num_var : option string)
    (label1 label2 num_label : string) : M ChartResult :=
  let title :=
    "'" +:+ label1 +:+ "'와 '" +:+ label2 +:+ "' 별 '" +:+ num_label
        +:+ "' (그룹형 막대 차트)" in
  '(table1, col1) ← unpack2 (str_split "." var1);
  '(table2, col2) ← unpack2 (str_split "." var2);
  '(table3, col3) ← opt_split_dot num_var ≫= unpack2;
  let agg_val :=
    if String.eqb col3 "(사고건수)" then "COUNT(ACCIDENT.AccidentID)"
    else "SUM(" +:+ table3 +:+ "." +:+ col3 +:+ ")" in
  let select_clause :=
    "SELECT " +:+ table1 +:+ "." +:+ col1 +:+ ", " +:+ table2 +:+ "." +:+ col2
              +:+ ", " +:+ agg_val +:+ " AS Value" in
  let tables_needed : gset string := list_to_set ["ACCIDENT"; table1; table2; table3] in
  let from_clause := "FROM ACCIDENT" in
  let join_clause := "" in
  let join_clause :=
    if bool_decide ("DRIVER" ∈ tables_needed)
    then join_clause +:+ " JOIN DRIVER ON ACCIDENT.AccidentID = DRIVER.AccidentID"
    else join_clause in
  let join_clause :=
    if bool_decide ("REGION" ∈ tables_needed)
    then join_clause +:+ " JOIN REGION ON ACCIDENT.RegionCode = REGION.RegionCode"
    else join_clause in
  let group_by_clause :=
    "GROUP BY " +:+ table1 +:+ "." +:+ col1 +:+ ", " +:+ table2 +:+ "." +:+ col2 in
  let query :=
    select_clause +:+ " " +:+ from_clause +:+ " " +:+ join_clause +:+ " "
                  +:+ group_by_clause in
  df ← _fetch_data query;
  fig ← px {| px_fn := PxBar; px_data := df; px_x := col1; px_y := "Value";
              px_color := Some col2; px_size := None; px_hover_data := [];
              px_size_max := None; px_barmode := Some "group"; px_markers := false;
              px_title := title;
              px_labels := [(col1, label1); (col2, label2); ("Value", num_label)] |};
  mret (Some fig, title).

(** Case 4: bubble chart (numeric vs numeric). *)
Definition _create_bubble_chart (var1 var2 label1 label2 : string) : M ChartResult :=
  let title :=
    "'" +:+ label1 +:+ "'와 '" +:+ label2 +:+ "' 조합별 '사고건수' (버블 차트)" in
  '(table1, col1) ← unpack2 (str_split "." var1);
  '(table2, col2) ← unpack2 (str_split "." var2);
  let select_clause :=
    "SELECT " +:+ table1 +:+ "." +:+ col1 +:+ ", " +:+ table2 +:+ "." +:+ col2
              +:+ ", COUNT(ACCIDENT.AccidentID) AS BubbleSize" in
  let tables_needed : gset string := list_to_set ["ACCIDENT"; table1; table2] in
  let from_clause := "FROM ACCIDENT" in
  let join_clause := "" in
  let join_clause :=
    if bool_decide ("DRIVER" ∈ tables_needed)
    then join_clause +:+ " JOIN DRIVER ON ACCIDENT.AccidentID = DRIVER.AccidentID"
    else join_clause in
  let join_clause :=
    if bool_decide ("REGION" ∈ tables_needed)
    then join_clause +:+ " JOIN REGION ON ACCIDENT.RegionCode = REGION.RegionCode"
    else join_clause in
  let group_by_clause :=
    "GROUP BY " +:+ table1 +:+ "." +:+ col1 +:+ ", " +:+ table2 +:+ "." +:+ col2 in
  let query :=
    select_clause +:+ " " +:+ from_clause +:+ " " +:+ join_clause +:+ " "
                  +:+ group_by_clause in
  df ← _fetch_data query;
  if df_empty df then mret (None, "데이터가 없어 버블 차트를 생성할 수 없습니다.")
  else
    fig ← px {| px_fn := PxScatter; px_data := df; px_x := col1; px_y := col2;
                px_color := Some "BubbleSize"; px_size := Some "BubbleSize";
                px_hover_data := [(col1, true); (col2, true); ("BubbleSize", true)];
                px_size_max := Some 60%Z; px_barmode := None; px_markers := false;
                px_title := title;
                px_labels := [(col1, label1); (col2, label2); ("BubbleSize", "사고건수")] |};
    let fig := update_xaxes_dtick 1 fig in
    let fig := update_yaxes_dtick 1 fig in
    mret (Some fig, title).

(** Case 5: multi-series line chart (temporal vs categorical). *)
Definition _create_multi_line_chart (time_var cat_var : string) (num_var : option string)
    (time_label cat_label num_label : string) : M ChartResult :=
  let title :=
    "'" +:+ time_label +:+ "'에 따른 '" +:+ cat_label +:+ "'별 '" +:+ num_label
        +:+ "' 추이" in
  '(table1, col1) ← unpack2 (str_split "." time_var);
  '(table2, col2) ← unpack2 (str_split "." cat_var);
  '(table3, col3) ← opt_split_dot num_var ≫= unpack2;
  let agg_val :=
    if String.eqb col3 "(사고건수)" then "COUNT(ACCIDENT.AccidentID)"
    else "SUM(" +:+ table3 +:+ "." +:+ col3 +:+ ")" in
  let select_clause :=
    "SELECT " +:+ table1 +:+ "." +:+ col1 +:+ ", " +:+ table2 +:+ "." +:+ col2
              +:+ ", " +:+ agg_val +:+ " AS Value" in
  let tables_needed : gset string := list_to_set ["ACCIDENT"; table1; table2; table3] in
  let from_clause := "FROM ACCIDENT" in
  let join_clause := "" in
  let join_clause :=
    if bool_decide ("DRIVER" ∈ tables_needed)
    then join_clause +:+ " JOIN DRIVER ON ACCIDENT.AccidentID = DRIVER.AccidentID"
    else join_clause in
  let join_clause :=
    if bool_decide ("REGION" ∈ tables_needed)
    then join_clause +:+ " JOIN REGION ON ACCIDENT.RegionCode = REGION.RegionCode"
    else join_clause in
  let group_by_clause :=
    "GROUP BY " +:+ table1 +:+ "." +:+ col1 +:+ ", " +:+ table2 +:+ "." +:+ col2 in
  let order_by_clause := "ORDER BY " +:+ table1 +:+ "." +:+ col1 in
  let query :=
    select_clause +:+ " " +:+ from_clause +:+ " " +:+ join_clause +:+ " "
                  +:+ group_by_clause +:+ " " +:+ order_by_clause in
  df ← _fetch_data query;
  col1_name ← subscript1 (str_split "." time_var);
  df ← try_except (convert_time_column df col1_name)
         (λ e, logging_warning (time_conversion_warning e);; mret df);
  fig ← px {| px_fn := PxLine; px_data := df; px_x := col1_name; px_y := "Value";
              px_color := Some col2; px_size := None; px_hover_data := [];
              px_size_max := None; px_barmode := None; px_markers := true;
              px_title := title;
              px_labels := [(col1, time_label); ("Value", num_label); (col2, cat_label)] |};
  mret (Some fig, title).

(** The body of the [try] block of [generate_visualization]. *)
Definition dispatch (var1 var2 label1 label2 type1 type2 : string) : M ChartResult :=
  if String.eqb type1 "범주형" && String.eqb type2 "수치형" then
    _create_bar_chart var1 var2 label1 label2
  else if String.eqb type1 "수치형" && String.eqb type2 "범주형" then
    _create_bar_chart var2 var1 label2 label1
  else if String.eqb type1 "시간형" && String.eqb type2 "수치형" then
    _create_line_chart var1 var2 label1 label2
  else if String.eqb type1 "수치형" && String.eqb type2 "시간형" then
    _create_line_chart var2 var1 label2 label1
  else if String.eqb type1 "범주형" && String.eqb type2 "범주형" then
    let num_label := "사고건수" in
    let num_var := _get_internal_name num_label in
    _create_grouped_bar_chart var1 var2 num_var label1 label2 num_label
  else if String.eqb type1 "수치형" && String.eqb type2 "수치형" then
    if bool_decide ("사고건수" ∈ [label1; label2]) then
      mret (None, "이 시각화는 '사고건수'를 지원하지 않습니다.")
    else _create_bubble_chart var1 var2 label1 label2
  else if String.eqb type1 "시간형" && String.eqb type2 "범주형" then
    let num_label := "사고건수" in
    let num_var := _get_internal_name num_label in
    _create_multi_line_chart var1 var2 num_var label1 label2 num_label
  else if String.eqb type1 "범주형" && String.eqb type2 "시간형" then
    let num_label := "사고건수" in
    let num_var := _get_internal_name num_label in
    _create_multi_line_chart var2 var1 num_var label2 label1 num_label
  else
    mret (None, "선택된 조합에 대한 시각화를 생성할 수 없습니다.").

(** The [except Exception as e] branch of [generate_visualization]. *)
Definition on_error (e : exn) : M ChartResult :=
  logging_error ("시각화 생성 중 오류: " +:+ exn_str e);;
  mret (None, "차트 생성 중 오류가 발생했습니다: " +:+ exn_str e).

Definition generate_visualization (label1 label2 : string) : M ChartResult :=
  let var1 := _get_internal_name label1 in
  let var2 := _get_internal_name label2 in
  match truthy var1, truthy var2 with
  | Some var1, Some var2 =>
      let type1 := _get_column_type var1 in
      let type2 := _get_column_type var2 in
      logging_info ("시각화 생성 시작: " +:+ label1 +:+ "(" +:+ type1 +:+ ") vs "
                      +:+ label2 +:+ "(" +:+ type2 +:+ ")");;
      try_except (dispatch var1 var2 label1 label2 type1 type2) on_error
  | _, _ => mret (None, "선택된 변수명을 찾을 수 없습니다.")
  end.

End Visualizer.

(** ** The selection list *)

(** [list(d.keys())] for a dict filled from [keys] in order: every key
    stands where it was first inserted. *)
Fixpoint dict_keys (seen keys : list string) : list string :=
  match keys with
  | [] => []
  | k :: rest =>
      if bool_decide (k ∈ seen) then dict_keys seen rest
      else k :: dict_keys (k :: seen) rest
  end.

(** [get_available_columns]: [sorted(list(self.LABEL_TO_INTERNAL.keys()))].
    Strings compare by code point, which on UTF-8 is the byte-wise
    lexicographic order [String.le]; the keys of a dict are distinct, so the
    sorted list does not depend on the sorting algorithm. *)
Definition get_available_columns : list string :=
  merge_sort String.le
    (dict_keys [] (map (λ kv : string * column_info, info_label kv.2) COLUMN_CONFIG)).

(** * Vocabulary of the properties *)

(** ** Reading query texts *)


(** [s.startswith(pre)] *)
Definition str_startswith (pre s : string) : bool := String.prefix pre s.

(** The table part of an identifier [Table.Column]. *)
Definition owner (var : string) : string :=
  match str_split "." var with
  | t :: _ => t
  | [] => ""
  end.

(** ** The SQL text of each routine *)

Definition JOIN_DRIVER : string :=
  " JOIN DRIVER ON ACCIDENT.AccidentID = DRIVER.AccidentID".
Definition JOIN_REGION : string :=
  " JOIN REGION ON ACCIDENT.RegionCode = REGION.RegionCode".

(** The join clause for the owning tables [tables] of the involved fields. *)
Definition joins_for (tables : list string) : string :=
  (if bool_decide ("DRIVER" ∈ tables) then JOIN_DRIVER else "")
    +:+ (if bool_decide ("REGION" ∈ tables) then JOIN_REGION else "").

(** The aggregate that [_build_query_components] selects for the numeric
    field [num_var = table2.col2]. *)
Definition select_col2_of (num_var table2 col2 : string) : string :=
  if String.eqb col2 "(사고건수)" then "COUNT(ACCIDENT.AccidentID)"
  else (if str_contains "(사고건수)" num_var then "COUNT" else "SUM")
         +:+ "(" +:+ table2 +:+ "." +:+ str_remove ")" (str_remove "(" col2) +:+ ")".

(** The aggregate that the grouped-bar and multi-line routines select. *)
Definition agg_val_of (table3 col3 : string) : string :=
  if String.eqb col3 "(사고건수)" then "COUNT(ACCIDENT.AccidentID)"
  else "SUM(" +:+ table3 +:+ "." +:+ col3 +:+ ")".

Definition bar_sql (t1 c1 t2 c2 num_var : string) : string :=
  ("SELECT " +:+ t1 +:+ "." +:+ c1 +:+ ", " +:+ select_col2_of num_var t2 c2 +:+ " AS Value")
    +:+ " " +:+ "FROM ACCIDENT" +:+ " " +:+ joins_for [t1; t2] +:+ " "
    +:+ ("GROUP BY " +:+ t1 +:+ "." +:+ c1) +:+ " ORDER BY Value DESC LIMIT 20".

Definition line_sql (t1 c1 t2 c2 num_var : string) : string :=
  ("SELECT " +:+ t1 +:+ "." +:+ c1 +:+ ", " +:+ select_col2_of num_var t2 c2 +:+ " AS Value")
    +:+ " " +:+ "FROM ACCIDENT" +:+ " " +:+ joins_for [t1; t2] +:+ " "
    +:+ ("GROUP BY " +:+ t1 +:+ "." +:+ c1) +:+ " " +:+ ("ORDER BY " +:+ t1 +:+ "." +:+ c1).

Definition grouped_sql (t1 c1 t2 c2 t3 c3 : string) : string :=
  ("SELECT " +:+ t1 +:+ "." +:+ c1 +:+ ", " +:+ t2 +:+ "." +:+ c2 +:+ ", "
      +:+ agg_val_of t3 c3 +:+ " AS Value")
    +:+ " " +:+ "FROM ACCIDENT" +:+ " " +:+ joins_for [t1; t2; t3] +:+ " "
    +:+ ("GROUP BY " +:+ t1 +:+ "." +:+ c1 +:+ ", " +:+ t2 +:+ "." +:+ c2).

Definition bubble_sql (t1 c1 t2 c2 : string) : string :=
  ("SELECT " +:+ t1 +:+ "." +:+ c1 +:+ ", " +:+ t2 +:+ "." +:+ c2
      +:+ ", COUNT(ACCIDENT.AccidentID) AS BubbleSize")
    +:+ " " +:+ "FROM ACCIDENT" +:+ " " +:+ joins_for [t1; t2] +:+ " "
    +:+ ("GROUP BY " +:+ t1 +:+ "." +:+ c1 +:+ ", " +:+ t2 +:+ "." +:+ c2).

Definition multi_line_sql (t1 c1 t2 c2 t3 c3 : string) : string :=
  ("SELECT " +:+ t1 +:+ "." +:+ c1 +:+ ", " +:+ t2 +:+ "." +:+ c2 +:+ ", "
      +:+ agg_val_of t3 c3 +:+ " AS Value")
    +:+ " " +:+ "FROM ACCIDENT" +:+ " " +:+ joins_for [t1; t2; t3] +:+ " "
    +:+ ("GROUP BY " +:+ t1 +:+ "." +:+ c1 +:+ ", " +:+ t2 +:+ "." +:+ c2)
    +:+ " " +:+ ("ORDER BY " +:+ t1 +:+ "." +:+ c1).

(** The titles and the plotly calls of the five routines. *)
Definition bar_title (cat_label num_label : string) : string :=
  "'" +:+ cat_label +:+ "' 별 '" +:+ num_label +:+ "' (상위 20개)".

Definition line_title (time_label num_label : string) : string :=
  "'" +:+ time_label +:+ "' 별 '" +:+ num_label +:+ "' 추이".

Definition grouped_title (label1 label2 num_label : string) : string :=
  "'" +:+ label1 +:+ "'와 '" +:+ label2 +:+ "' 별 '" +:+ num_label
      +:+ "' (그룹형 막대 차트)".

Definition bubble_title (label1 label2 : string) : string :=
  "'" +:+ label1 +:+ "'와 '" +:+ label2 +:+ "' 조합별 '사고건수' (버블 차트)".

Definition multi_line_title (time_label cat_label num_label : string) : string :=
  "'" +:+ time_label +:+ "'에 따른 '" +:+ cat_label +:+ "'별 '" +:+ num_label
      +:+ "' 추이".

Definition bar_call (df : DataFrame) (c1 cat_label num_label : string) : px_call :=
  {| px_fn := PxBar; px_data := df; px_x := c1; px_y := "Value";
     px_color := None; px_size := None; px_hover_data := [];
     px_size_max := None; px_barmode := None; px_markers := false;
     px_title := bar_title cat_label num_label;
     px_labels := [(c1, cat_label); ("Value", num_label)] |}.

Definition line_call (df : DataFrame) (c1 time_label num_label : string) : px_call :=
  {| px_fn := PxLine; px_data := df; px_x := c1; px_y := "Value";
     px_color := None; px_size := None; px_hover_data := [];
     px_size_max := None; px_barmode := None; px_markers := true;
     px_title := line_title time_label num_label;
     px_labels := [(c1, time_label); ("Value", num_label)] |}.

Definition grouped_call (df : DataFrame) (c1 c2 label1 label2 num_label : string) : px_call :=
  {| px_fn := PxBar; px_data := df; px_x := c1; px_y := "Value";
     px_color := Some c2; px_size := None; px_hover_data := [];
     px_size_max := None; px_barmode := Some "group"; px_markers := false;
     px_title := grouped_title label1 label2 num_label;
     px_labels := [(c1, label1); (c2, label2); ("Value", num_label)] |}.

Definition bubble_call (df : DataFrame) (c1 c2 label1 label2 : string) : px_call :=
  {| px_fn := PxScatter; px_data := df; px_x := c1; px_y := c2;
     px_color := Some "BubbleSize"; px_size := Some "BubbleSize";
     px_hover_data := [(c1, true); (c2, true); ("BubbleSize", true)];
     px_size_max := Some 60%Z; px_barmode := None; px_markers := false;
     px_title := bubble_title label1 label2;
     px_labels := [(c1, label1); (c2, label2); ("BubbleSize", "사고건수")] |}.

Definition multi_line_call (df : DataFrame) (c1 c2 time_label cat_label num_label : string)
  : px_call :=
  {| px_fn := PxLine; px_data := df; px_x := c1; px_y := "Value";
     px_color := Some c2; px_size := None; px_hover_data := [];
     px_size_max := None; px_barmode := None; px_markers := true;
     px_title := multi_line_title time_label cat_label num_label;
     px_labels := [(c1, time_label); ("Value", num_label); (c2, cat_label)] |}.

(** The temporal fix-up of the two line routines: convert, or warn and keep
    the fetched frame. *)
Definition lenient_convert (W : World) (df : DataFrame) (c1 : string) : M DataFrame :=
  try_except (convert_time_column W df c1)
    (λ e, logging_warning (time_conversion_warning e);; mret df).

(** The display labels of the catalog. *)
Definition display_labels : list string :=
  map (λ kv, info_label kv.2) COLUMN_CONFIG.

(** The (label, internal id) pairs from which [__init__] builds the
    reverse map. *)
Definition label_pairs : list (string * string) :=
  map (λ kv, (info_label kv.2, kv.1)) COLUMN_CONFIG.


(** The line logged before dispatching. *)
Definition start_message (label1 label2 type1 type2 : string) : string :=
  "시각화 생성 시작: " +:+ label1 +:+ "(" +:+ type1 +:+ ") vs "
    +:+ label2 +:+ "(" +:+ type2 +:+ ")".

(** The ordered type pairs of the dispatch table. *)
Definition in_dispatch_table (type1 type2 : string) : bool :=
  bool_decide ((type1, type2) ∈
    [ ("범주형", "수치형"); ("수치형", "범주형");
      ("시간형", "수치형"); ("수치형", "시간형");
      ("범주형", "범주형"); ("수치형", "수치형");
      ("시간형", "범주형"); ("범주형", "시간형") ]).

(** Sample worlds. *)
Definition monthly_frame : DataFrame :=
  {| columns := ["OccurYearMonth"; "Value"];
     rows := [[VStr "202201"; VInt 7]; [VStr "202202"; VInt 3]] |}.

Definition malformed_frame : DataFrame :=
  {| columns := ["OccurYearMonth"; "Value"];
     rows := [[VStr "202201"; VInt 7]; [VStr "abcd12"; VInt 3]] |}.

Definition counts_frame : DataFrame :=
  {| columns := ["SevereInjuryCount"; "MinorInjuryCount"; "BubbleSize"];
     rows := [[VInt 0; VInt 1; VInt 12]; [VInt 1; VInt 0; VInt 4]] |}.

Definition region_frame : DataFrame :=
  {| columns := ["RegionName"; "Value"];
     rows := [[VStr "강남구"; VInt 31]; [VStr "종로구"; VInt 12]] |}.

Definition day_gender_frame : DataFrame :=
  {| columns := ["DayNight"; "Gender"; "Value"];
     rows := [[VStr "주"; VStr "남"; VInt 9]; [VStr "야"; VStr "여"; VInt 4]] |}.

Definition duplicate_frame : DataFrame :=
  {| columns := ["SevereInjuryCount"; "SevereInjuryCount"; "BubbleSize"];
     rows := [[VInt 0; VInt 0; VInt 12]; [VInt 1; VInt 1; VInt 4]] |}.

(** A date conversion for the sample worlds: it knows the months of the
    sample frames and raises on every other value.  The text of its
    exception is a stand-in: the routines only ever copy it into the
    warning. *)
Definition sample_months : list (string * cell) :=
  [("202201", VTime 2022 1); ("202202", VTime 2022 2); ("202203", VTime 2022 3)].

Definition sample_parse_error (s : string) : exn :=
  Exn "ValueError" ("no month for " +:+ s).

Definition sample_month (s : string) : exn + cell :=
  match list_find (λ p, p.1 = s) sample_months with
  | Some (_, (_, d)) => inr d
  | None => inl (sample_parse_error s)
  end.

Definition sample_to_datetime_value (v : cell) : exn + cell :=
  match v with
  | VStr s => sample_month s
  | VInt z => sample_month (pretty z)
  | VNull => inr VNull
  | VTime y m => inr (VTime y m)
  end.

Fixpoint sample_to_datetime_values (vals : list cell) : exn + list cell :=
  match vals with
  | [] => inr []
  | v :: rest =>
      match sample_to_datetime_value v with
      | inl e => inl e
      | inr v' =>
          match sample_to_datetime_values rest with
          | inl e => inl e
          | inr rest' => inr (v' :: rest')
          end
      end
  end.

Definition sample_to_datetime (fmt : string) (vals : list cell) : exn + list cell :=
  if String.eqb fmt "%Y%m" then sample_to_datetime_values vals
  else inl (Exn "ValueError" "unknown format").

Definition world_of (df : DataFrame) : World :=
  {| read_sql := λ _, inr df; px_fault := λ _, None;
     to_datetime := sample_to_datetime |}.

(** A world in which plotly refuses a chart whose two axes are the same
    column, as the same numeric label chosen twice asks for. *)
Definition duplicate_world : World :=
  {| read_sql := λ _, inr duplicate_frame;
     px_fault := λ c, if String.eqb (px_x c) (px_y c)
                      then Some (Exn "ValueError" "duplicate column names")
                      else None;
     to_datetime := sample_to_datetime |}.

Definition store_down : World :=
  {| read_sql := λ _, inl (Exn "OperationalError" "Can't connect to MySQL server");
     px_fault := λ _, None;
     to_datetime := sample_to_datetime |}.

Definition plotly_down (df : DataFrame) : World :=
  {| read_sql := λ _, inr df;
     px_fault := λ _, Some (Exn "ValueError" "Value of 'x' is not the name of a column");
     to_datetime := sample_to_datetime |}.

(** What a routine returns once its frame is ready: plotly's exception, or
    the figure of the call with the routine's title. *)
Definition chart_of (W : World) (c : px_call) (title : string) : exn + ChartResult :=
  match px_fault W c with
  | Some e => inl e
  | None => inr (Some (new_figure c), title)
  end.

(** The aggregate the specification prescribes for the numeric field
    [num_var]. *)
Definition aggregate_of (num_var : string) : string :=
  if String.eqb num_var "ACCIDENT.(사고건수)" then "COUNT(ACCIDENT.AccidentID)"
  else "SUM(" +:+ num_var +:+ ")".

(** The head of a one-dimension and of a two-dimension aggregate query. *)
Definition select_one (t1 c1 agg : string) : string :=
  "SELECT " +:+ t1 +:+ "." +:+ c1 +:+ ", " +:+ agg +:+ " AS Value".

Definition select_two (t1 c1 t2 c2 agg : string) : string :=
  "SELECT " +:+ t1 +:+ "." +:+ c1 +:+ ", " +:+ t2 +:+ "." +:+ c2 +:+ ", "
    +:+ agg +:+ " AS Value".

(** The head of the bubble query, whose value is named [BubbleSize]. *)
Definition select_bubble (t1 c1 t2 c2 agg : string) : string :=
  "SELECT " +:+ t1 +:+ "." +:+ c1 +:+ ", " +:+ t2 +:+ "." +:+ c2 +:+ ", "
    +:+ agg +:+ " AS BubbleSize".

(** The type pairs served by the bar-chart routine. *)
Definition bar_pair (type1 type2 : string) : bool :=
  (String.eqb type1 "범주형" && String.eqb type2 "수치형")
  || (String.eqb type1 "수치형" && String.eqb type2 "범주형").

(** The ordered type pairs that the dispatcher canonicalises by swapping
    its arguments. *)
Definition symmetric_pair (type1 type2 : string) : bool :=
  bool_decide ((type1, type2) ∈
    [ ("범주형", "수치형"); ("수치형", "범주형");
      ("시간형", "수치형"); ("수치형", "시간형");
      ("시간형", "범주형"); ("범주형", "시간형") ]).

(** ** Vocabulary of the further properties *)

(** The number of occurrences of [c] in [s]. *)
Fixpoint count_char (c : ascii) (s : string) : nat :=
  match s with
  | EmptyString => 0
  | String a r => (if Ascii.eqb a c then 1 else 0) + count_char c r
  end.

Definition no_data_message : string := "데이터가 없어 버블 차트를 생성할 수 없습니다.".
Definition unsupported_count_message : string := "이 시각화는 '사고건수'를 지원하지 않습니다.".
Definition no_chart_message : string := "선택된 조합에 대한 시각화를 생성할 수 없습니다.".
Definition not_found_message : string := "선택된 변수명을 찾을 수 없습니다.".
Definition error_prefix : string := "차트 생성 중 오류가 발생했습니다: ".

(** The common shape of the five routines: fetch the SQL text, return
    early when the guard says so, prepare the frame, call plotly, adjust the
    figure and return it with the title. *)
Record plan : Type := mkPlan {
  p_sql : string;
  p_guard : DataFrame → option ChartResult;
  p_prep : DataFrame → M DataFrame;
  p_call : DataFrame → px_call;
  p_post : Figure → Figure;
  p_title : string
}.

Definition run_plan (W : World) (p : plan) : M ChartResult :=
  df ← _fetch_data W (p_sql p);
  match p_guard p df with
  | Some r => mret r
  | None =>
      df ← p_prep p df;
      fig ← px W (p_call p df);
      mret (Some (p_post p fig), p_title p)
  end.

Definition bar_plan (t1 c1 t2 c2 num_var cat_label num_label : string) : plan :=
  {| p_sql := bar_sql t1 c1 t2 c2 num_var;
     p_guard := λ _, None;
     p_prep := mret;
     p_call := λ df, bar_call df c1 cat_label num_label;
     p_post := update_xaxes_type "category";
     p_title := bar_title cat_label num_label |}.

Definition line_plan (W : World) (t1 c1 t2 c2 num_var time_label num_label : string)
  : plan :=
  {| p_sql := line_sql t1 c1 t2 c2 num_var;
     p_guard := λ _, None;
     p_prep := λ df, lenient_convert W df c1;
     p_call := λ df, line_call df c1 time_label num_label;
     p_post := λ fig, fig;
     p_title := line_title time_label num_label |}.

Definition grouped_plan (t1 c1 t2 c2 t3 c3 label1 label2 num_label : string) : plan :=
  {| p_sql := grouped_sql t1 c1 t2 c2 t3 c3;
     p_guard := λ _, None;
     p_prep := mret;
     p_call := λ df, grouped_call df c1 c2 label1 label2 num_label;
     p_post := λ fig, fig;
     p_title := grouped_title label1 label2 num_label |}.

Definition bubble_plan (t1 c1 t2 c2 label1 label2 : string) : plan :=
  {| p_sql := bubble_sql t1 c1 t2 c2;
     p_guard := λ df, if df_empty df then Some (None, no_data_message) else None;
     p_prep := mret;
     p_call := λ df, bubble_call df c1 c2 label1 label2;
     p_post := λ fig, update_yaxes_dtick 1 (update_xaxes_dtick 1 fig);
     p_title := bubble_title label1 label2 |}.

Definition multi_line_plan (W : World)
    (t1 c1 t2 c2 t3 c3 time_label cat_label num_label : string) : plan :=
  {| p_sql := multi_line_sql t1 c1 t2 c2 t3 c3;
     p_guard := λ _, None;
     p_prep := λ df, lenient_convert W df c1;
     p_call := λ df, multi_line_call df c1 c2 time_label cat_label num_label;
     p_post := λ fig, fig;
     p_title := multi_line_title time_label cat_label num_label |}.

(** The plotly function the dispatch table assigns to a type pair. *)
Definition kind_of (type1 type2 : string) : chart_kind :=
  if String.eqb type1 "수치형" && String.eqb type2 "수치형" then PxScatter
  else if String.eqb type1 "시간형" || String.eqb type2 "시간형" then PxLine
  else PxBar.

(** What every plan the dispatcher runs for [(label1, label2)] satisfies. *)
Definition good_plan (label1 label2 type1 type2 : string) (p : plan) : Prop :=
  (∀ df, ∃ t df', p_prep p df = (t, inr df') ∧ queries t = [] ∧ plots t = [])
  ∧ (∀ df, (df_empty df = false ∧ p_guard p df = None)
           ∨ (type1 = "수치형" ∧ type2 = "수치형" ∧ df_empty df = true
              ∧ p_guard p df = Some (None, no_data_message))
           ∨ ((type1 ≠ "수치형" ∨ type2 ≠ "수치형") ∧ p_guard p df = None))
  ∧ (∀ df, px_data (p_call p df) = df
           ∧ px_title (p_call p df) = p_title p
           ∧ px_fn (p_call p df) = kind_of type1 type2
           ∧ label1 ∈ (px_labels (p_call p df)).*2
           ∧ label2 ∈ (px_labels (p_call p df)).*2)
  ∧ (∀ f, fig_call (p_post p f) = fig_call f
          ∧ xaxis_type (p_post p f)
            = if bar_pair type1 type2 then Some "category" else xaxis_type f)
  ∧ str_contains label1 (p_title p) = true
  ∧ str_contains label2 (p_title p) = true.

(** The events of a fetch that succeeded with [df0]. *)
Definition fetched (sql : string) (df0 : DataFrame) : list event :=
  [Log INFO ("Executing SQL: " +:+ sql); ExecSQL sql;
   Log INFO ("Data fetched: " +:+ pretty (df_len df0) +:+ " rows")].

Definition error_line (e : exn) : event :=
  Log ERROR ("시각화 생성 중 오류: " +:+ exn_str e).

(** Everything [generate_visualization] can do, after its start line, for
    two resolved labels of types [type1] and [type2]: the events that
    follow and the pair that is returned. *)
Inductive outcome (W : World) (label1 label2 type1 type2 : string)
  : list event → ChartResult → Prop :=
| out_no_chart :
    in_dispatch_table type1 type2 = false →
    outcome W label1 label2 type1 type2 [] (None, no_chart_message)
| out_unsupported :
    type1 = "수치형" → type2 = "수치형" → "사고건수" ∈ [label1; label2] →
    outcome W label1 label2 type1 type2 [] (None, unsupported_count_message)
| out_store_fault p e :
    in_dispatch_table type1 type2 = true →
    good_plan label1 label2 type1 type2 p →
    read_sql W (p_sql p) = inl e →
    outcome W label1 label2 type1 type2
      [Log INFO ("Executing SQL: " +:+ p_sql p); ExecSQL (p_sql p); error_line e]
      (None, error_prefix +:+ exn_str e)
| out_no_data p df0 :
    type1 = "수치형" → type2 = "수치형" →
    good_plan label1 label2 type1 type2 p →
    read_sql W (p_sql p) = inr df0 → df_empty df0 = true →
    outcome W label1 label2 type1 type2 (fetched (p_sql p) df0) (None, no_data_message)
| out_plot_fault p df0 t df e :
    in_dispatch_table type1 type2 = true →
    good_plan label1 label2 type1 type2 p →
    read_sql W (p_sql p) = inr df0 → p_guard p df0 = None →
    p_prep p df0 = (t, inr df) → queries t = [] → plots t = [] →
    px_fault W (p_call p df) = Some e →
    outcome W label1 label2 type1 type2
      (fetched (p_sql p) df0 ++ t ++ [Plot (px_fn (p_call p df)); error_line e])
      (None, error_prefix +:+ exn_str e)
| out_chart p df0 t df :
    in_dispatch_table type1 type2 = true →
    good_plan label1 label2 type1 type2 p →
    read_sql W (p_sql p) = inr df0 → p_guard p df0 = None →
    p_prep p df0 = (t, inr df) → queries t = [] → plots t = [] →
    px_fault W (p_call p df) = None →
    outcome W label1 label2 type1 type2
      (fetched (p_sql p) df0 ++ t ++ [Plot (px_fn (p_call p df))])
      (Some (p_post p (new_figure (p_call p df))), p_title p).

(** * Properties *)

(** ** The trace of a computation *)

Lemma queries_app (t1 t2 : list event) : queries (t1 ++ t2) = queries t1 ++ queries t2.
Proof. unfold queries. apply omap_app. Qed.

Lemma plots_app (t1 t2 : list event) : plots (t1 ++ t2) = plots t1 ++ plots t2.
Proof. unfold plots. apply omap_app. Qed.

Lemma warnings_app (t1 t2 : list event) : warnings (t1 ++ t2) = warnings t1 ++ warnings t2.
Proof. unfold warnings. apply omap_app. Qed.

Lemma ret_bind {A B} (a : A) (k : A → M B) : mret a ≫= k = k a.
Proof. unfold mbind, M_bind, mret, M_ret. by destruct (k a). Qed.

Lemma raise_bind {A B} (e : exn) (k : A → M B) : raise e ≫= k = raise e.
Proof. reflexivity. Qed.

Lemma bind_ext {A B} (m : M A) (k k' : A → M B) :
  (∀ a, k a = k' a) → m ≫= k = m ≫= k'.
Proof. intros Hk. destruct m as [t [e|a]]; cbn; [done|]. by rewrite Hk. Qed.


Lemma bind_result {A B} (m : M A) (k : A → M B) :
  (m ≫= k).2 = match m.2 with inl e => inl e | inr a => (k a).2 end.
Proof. destruct m as [t [e|a]]; cbn; [done|]. by destruct (k a). Qed.

Lemma try_except_trace {A} (m : M A) (h : exn → M A) :
  (try_except m h).1 = m.1 ++ match m.2 with inl e => (h e).1 | inr _ => [] end.
Proof.
  destruct m as [t [e|a]]; cbn.
  - by destruct (h e).
  - by rewrite app_nil_r.
Qed.

Lemma try_except_result {A} (m : M A) (h : exn → M A) :
  (try_except m h).2 = match m.2 with inl e => (h e).2 | inr a => inr a end.
Proof. destruct m as [t [e|a]]; cbn; [|done]. by destruct (h e). Qed.

(** Unpacking either yields the two parts or raises before anything else
    happens. *)
Lemma unpack2_cases (parts : list string) :
  (∃ a b, parts = [a; b]) ∨ (∃ e, unpack2 parts = ([], inl e)).
Proof.
  destruct parts as [|a [|b [|c l]]]; cbn; eauto.
Qed.

Lemma str_split_nonempty (sep : ascii) (s : string) : str_split sep s ≠ [].
Proof. destruct s as [|c r]; cbn; [done|]. destruct (Ascii.eqb c sep); [done|]. by destruct (str_split sep r). Qed.

Lemma tables_needed_elem (x : string) (ts : list string) :
  x ≠ "ACCIDENT" →
  bool_decide (x ∈ (list_to_set ("ACCIDENT" :: ts) : gset string)) = bool_decide (x ∈ ts).
Proof.
  intros Hx. apply bool_decide_ext.
  rewrite elem_of_list_to_set, elem_of_cons.
  split; [intros [?|?]; [congruence|done] | by right].
Qed.

Section Routines.

Context (W : World).

(** With both identifiers of the form [Table.Column], each routine is a
    fetch of its SQL text followed by the construction of its chart. *)

Ltac resolve_ids H1 H2 :=
  rewrite ?H1, ?H2; cbn [unpack2 opt_split_dot subscript1];
  repeat (rewrite ret_bind; cbn beta iota);
  rewrite ?tables_needed_elem by done.

Ltac same_fetch :=
  apply bind_ext; intros ?df; rewrite ?ret_bind; try reflexivity.

Lemma bar_chart_unfold cat_var num_var cat_label num_label t1 c1 t2 c2 :
  str_split "." cat_var = [t1; c1] → str_split "." num_var = [t2; c2] →
  _create_bar_chart W cat_var num_var cat_label num_label =
    (df ← _fetch_data W (bar_sql t1 c1 t2 c2 num_var);
     fig ← px W (bar_call df c1 cat_label num_label);
     mret (Some (update_xaxes_type "category" fig), bar_title cat_label num_label)).
Proof.
  intros H1 H2. unfold _create_bar_chart, _build_query_components.
  resolve_ids H1 H2.
  unfold bar_sql, select_col2_of, joins_for.
  destruct (str_contains _ num_var); cbn [truthy String.eqb Ascii.eqb Bool.eqb];
    rewrite ret_bind; cbn beta iota;
    (destruct (bool_decide _), (bool_decide _); same_fetch).
Qed.

Lemma line_chart_unfold time_var num_var time_label num_label t1 c1 t2 c2 :
  str_split "." time_var = [t1; c1] → str_split "." num_var = [t2; c2] →
  _create_line_chart W time_var num_var time_label num_label =
    (df ← _fetch_data W (line_sql t1 c1 t2 c2 num_var);
     df ← lenient_convert W df c1;
     fig ← px W (line_call df c1 time_label num_label);
     mret (Some fig, line_title time_label num_label)).
Proof.
  intros H1 H2. unfold _create_line_chart, _build_query_components.
  resolve_ids H1 H2.
  unfold line_sql, select_col2_of, joins_for.
  destruct (str_contains _ num_var); cbn [truthy String.eqb Ascii.eqb Bool.eqb];
    rewrite ret_bind; cbn beta iota;
    (destruct (bool_decide _), (bool_decide _); same_fetch).
Qed.

Lemma grouped_bar_chart_unfold var1 var2 num_var label1 label2 num_label
    t1 c1 t2 c2 t3 c3 :
  str_split "." var1 = [t1; c1] → str_split "." var2 = [t2; c2] →
  str_split "." num_var = [t3; c3] →
  _create_grouped_bar_chart W var1 var2 (Some num_var) label1 label2 num_label =
    (df ← _fetch_data W (grouped_sql t1 c1 t2 c2 t3 c3);
     fig ← px W (grouped_call df c1 c2 label1 label2 num_label);
     mret (Some fig, grouped_title label1 label2 num_label)).
Proof.
  intros H1 H2 H3. unfold _create_grouped_bar_chart.
  resolve_ids H1 H2. resolve_ids H3 H3.
  unfold grouped_sql, agg_val_of, joins_for.
  destruct (bool_decide _), (bool_decide _); same_fetch.
Qed.

Lemma bubble_chart_unfold var1 var2 label1 label2 t1 c1 t2 c2 :
  str_split "." var1 = [t1; c1] → str_split "." var2 = [t2; c2] →
  _create_bubble_chart W var1 var2 label1 label2 =
    (df ← _fetch_data W (bubble_sql t1 c1 t2 c2);
     if df_empty df then mret (None, "데이터가 없어 버블 차트를 생성할 수 없습니다.")
     else
       fig ← px W (bubble_call df c1 c2 label1 label2);
       mret (Some (update_yaxes_dtick 1 (update_xaxes_dtick 1 fig)),
             bubble_title label1 label2)).
Proof.
  intros H1 H2. unfold _create_bubble_chart.
  resolve_ids H1 H2.
  unfold bubble_sql, joins_for.
  destruct (bool_decide _), (bool_decide _); same_fetch.
Qed.

Lemma multi_line_chart_unfold time_var cat_var num_var time_label cat_label num_label
    t1 c1 t2 c2 t3 c3 :
  str_split "." time_var = [t1; c1] → str_split "." cat_var = [t2; c2] →
  str_split "." num_var = [t3; c3] →
  _create_multi_line_chart W time_var cat_var (Some num_var)
      time_label cat_label num_label =
    (df ← _fetch_data W (multi_line_sql t1 c1 t2 c2 t3 c3);
     df ← lenient_convert W df c1;
     fig ← px W (multi_line_call df c1 c2 time_label cat_label num_label);
     mret (Some fig, multi_line_title time_label cat_label num_label)).
Proof.
  intros H1 H2 H3. unfold _create_multi_line_chart.
  resolve_ids H1 H2. resolve_ids H3 H3.
  unfold multi_line_sql, agg_val_of, joins_for.
  destruct (bool_decide _), (bool_decide _); same_fetch.
Qed.

End Routines.

(** ** The store, plotly and the temporal fix-up, step by step *)

Section Steps.

Context (W : World).

Lemma fetch_data_eq (q : string) :
  _fetch_data W q =
    match read_sql W q with
    | inl e => ([Log INFO ("Executing SQL: " +:+ q); ExecSQL q], inl e)
    | inr df =>
        ([Log INFO ("Executing SQL: " +:+ q); ExecSQL q;
          Log INFO ("Data fetched: " +:+ pretty (df_len df) +:+ " rows")], inr df)
    end.
Proof. unfold _fetch_data, execute. by destruct (read_sql W q). Qed.

Lemma px_eq (c : px_call) :
  px W c =
    match px_fault W c with
    | Some e => ([Plot (px_fn c)], inl e)
    | None => ([Plot (px_fn c)], inr (new_figure c))
    end.
Proof. unfold px. by destruct (px_fault W c). Qed.

Lemma fetch_bind_ok {B} (q : string) (df : DataFrame) (k : DataFrame → M B) :
  read_sql W q = inr df →
  _fetch_data W q ≫= k =
    (Log INFO ("Executing SQL: " +:+ q) :: ExecSQL q
       :: Log INFO ("Data fetched: " +:+ pretty (df_len df) +:+ " rows") :: (k df).1,
     (k df).2).
Proof. intros H. rewrite fetch_data_eq, H. cbn. by destruct (k df). Qed.

Lemma fetch_bind_fail {B} (q : string) (e : exn) (k : DataFrame → M B) :
  read_sql W q = inl e →
  _fetch_data W q ≫= k = ([Log INFO ("Executing SQL: " +:+ q); ExecSQL q], inl e).
Proof. intros H. by rewrite fetch_data_eq, H. Qed.

Lemma px_then_ret (c : px_call) (f : Figure → Figure) (title : string) :
  px W c ≫= (λ fig, mret (Some (f fig), title)) =
    ([Plot (px_fn c)],
     match px_fault W c with
     | Some e => inl e
     | None => inr (Some (f (new_figure c)), title)
     end).
Proof. rewrite px_eq. by destruct (px_fault W c). Qed.

End Steps.

Lemma convert_time_column_trace (W : World) (df : DataFrame) (name : string) :
  (convert_time_column W df name).1 = [].
Proof.
  unfold convert_time_column, df_getitem.
  destruct (positions name (columns df) 0) as [|i [|j l]]; cbn; [done| |done].
  by destruct (to_datetime W _ _).
Qed.

Lemma lenient_convert_eq (W : World) (df : DataFrame) (c1 : string) :
  lenient_convert W df c1 =
    match (convert_time_column W df c1).2 with
    | inl e => ([Log WARNING (time_conversion_warning e)], inr df)
    | inr df' => ([], inr df')
    end.
Proof.
  unfold lenient_convert.
  pose proof (convert_time_column_trace W df c1) as Ht.
  destruct (convert_time_column W df c1) as [t [e|df']]; cbn in *; by subst.
Qed.

(** ** The catalog *)

Lemma dict_of_lookup_acc (pairs : list (string * string)) (d : gmap string string) k :
  foldl dict_setitem d pairs !! k =
    match foldl dict_setitem ∅ pairs !! k with
    | Some v => Some v
    | None => d !! k
    end.
Proof.
  revert d. induction pairs as [|kv pairs IH]; intros d; cbn [foldl].
  - by rewrite lookup_empty.
  - rewrite (IH (dict_setitem d kv)), (IH (dict_setitem ∅ kv)).
    destruct (foldl dict_setitem ∅ pairs !! k); [done|].
    unfold dict_setitem. destruct (decide (kv.1 = k)) as [<-|Hne].
    + by rewrite !lookup_insert_eq.
    + by rewrite !lookup_insert_ne, lookup_empty.
Qed.

Lemma dict_of_cons (kv : string * string) (pairs : list (string * string)) k :
  dict_of (kv :: pairs) !! k =
    match dict_of pairs !! k with
    | Some v => Some v
    | None => if decide (kv.1 = k) then Some kv.2 else None
    end.
Proof.
  unfold dict_of. cbn [foldl]. rewrite dict_of_lookup_acc.
  destruct (foldl dict_setitem ∅ pairs !! k); [done|].
  unfold dict_setitem. destruct (decide (kv.1 = k)) as [<-|Hne].
  - by rewrite lookup_insert_eq.
  - by rewrite lookup_insert_ne, lookup_empty.
Qed.

Lemma dict_of_lookup_None (pairs : list (string * string)) k :
  dict_of pairs !! k = None ↔ k ∉ pairs.*1.
Proof.
  induction pairs as [|kv pairs IH].
  - unfold dict_of; cbn. rewrite lookup_empty. split; [intros _; apply not_elem_of_nil|done].
  - rewrite dict_of_cons, fmap_cons, not_elem_of_cons.
    destruct (dict_of pairs !! k) eqn:E.
    + split; [done|]. intros [_ H]. by apply IH in H.
    + destruct (decide (kv.1 = k)) as [<-|Hne].
      * split; [done|]. by intros [? _].
      * split; [|done]. intros _. split; [done|]. by apply IH.
Qed.

Lemma dict_of_lookup_Some (pairs : list (string * string)) k v :
  dict_of pairs !! k = Some v → (k, v) ∈ pairs.
Proof.
  induction pairs as [|kv pairs IH].
  - unfold dict_of; cbn. by rewrite lookup_empty.
  - rewrite dict_of_cons.
    destruct (dict_of pairs !! k) eqn:E.
    + intros [= ->]. right. by apply IH.
    + destruct (decide (kv.1 = k)) as [<-|Hne]; [|done].
      intros [= <-]. destruct kv. left.
Qed.

(** A label resolves exactly when it is a display label. *)
Lemma resolve_None (label : string) :
  _get_internal_name label = None ↔ label ∉ display_labels.
Proof.
  unfold _get_internal_name, LABEL_TO_INTERNAL. rewrite dict_of_lookup_None.
  unfold display_labels. by rewrite <- list_fmap_compose.
Qed.

Lemma resolve_Some (label var : string) :
  _get_internal_name label = Some var → (label, var) ∈ label_pairs.
Proof. apply dict_of_lookup_Some. Qed.

(** A property checked on every pair of catalog entries holds for every
    two labels that resolve. *)
Lemma catalog_forall2 (P : string → string → string → string → bool) :
  forallb (λ p1, forallb (λ p2, P p1.1 p1.2 p2.1 p2.2) label_pairs) label_pairs = true →
  ∀ l1 v1 l2 v2,
    _get_internal_name l1 = Some v1 → _get_internal_name l2 = Some v2 →
    P l1 v1 l2 v2 = true.
Proof.
  intros HP l1 v1 l2 v2 H1%resolve_Some H2%resolve_Some.
  rewrite forallb_forall in HP.
  apply list_elem_of_In, HP in H1. rewrite forallb_forall in H1.
  apply list_elem_of_In, H1 in H2. exact H2.
Qed.

Lemma catalog_forall1 (P : string → string → bool) :
  forallb (λ p, P p.1 p.2) label_pairs = true →
  ∀ l v, _get_internal_name l = Some v → P l v = true.
Proof.
  intros HP l v H%resolve_Some. rewrite forallb_forall in HP.
  by apply list_elem_of_In, HP in H.
Qed.

(** Every resolved identifier is a non-empty [Table.Column]. *)
Lemma resolved_truthy l v :
  _get_internal_name l = Some v → truthy (Some v) = Some v.
Proof.
  intros H.
  apply (catalog_forall1 (λ _ v, bool_decide (truthy (Some v) = Some v))) in H;
    [by apply bool_decide_eq_true in H | by vm_compute].
Qed.

Lemma resolved_split l v :
  _get_internal_name l = Some v → ∃ t c, str_split "." v = [t; c].
Proof.
  intros H.
  apply (catalog_forall1
           (λ _ v, match str_split "." v with [_; _] => true | _ => false end)) in H;
    [|by vm_compute].
  destruct (str_split "." v) as [|t [|c [|]]]; try done. eauto.
Qed.

(** ** The dispatcher *)

Section Dispatcher.

Context (W : World).

Lemma generate_unfold label1 label2 var1 var2 :
  _get_internal_name label1 = Some var1 → _get_internal_name label2 = Some var2 →
  generate_visualization W label1 label2 =
    (logging_info (start_message label1 label2 (_get_column_type var1) (_get_column_type var2));;
     try_except
       (dispatch W var1 var2 label1 label2 (_get_column_type var1) (_get_column_type var2))
       (on_error)).
Proof.
  intros H1 H2. unfold generate_visualization.
  rewrite H1, H2, (resolved_truthy _ _ H1), (resolved_truthy _ _ H2). reflexivity.
Qed.

Lemma log_then {A} (msg : string) (m : M A) :
  (logging_info msg;; m) = (Log INFO msg :: m.1, m.2).
Proof. by destruct m. Qed.

End Dispatcher.


(** ** Strings *)



Lemma prefix_app_same (a x y : string) :
  String.prefix x y = true → String.prefix (a +:+ x) (a +:+ y) = true.
Proof.
  intros H. induction a as [|c a IH]; [done|].
  change (String c a +:+ x) with (String c (a +:+ x)).
  change (String c a +:+ y) with (String c (a +:+ y)).
  cbn [String.prefix]. destruct (ascii_dec c c); [done|congruence].
Qed.

Lemma prefix_empty (s : string) : String.prefix "" s = true.
Proof. by destruct s. Qed.

Lemma prefix_app_l (a x : string) : String.prefix a (a +:+ x) = true.
Proof.
  rewrite <- (prefix_empty x). induction a as [|c a IH]; [done|].
  change (String c a +:+ x) with (String c (a +:+ x)).
  cbn [String.prefix]. destruct (ascii_dec c c); [|congruence].
  rewrite IH. by rewrite prefix_empty.
Qed.

(** ** The queries each routine sends *)

Section Queries.

Context (W : World).

Lemma bar_chart_queries cat_var num_var cat_label num_label t1 c1 t2 c2 :
  str_split "." cat_var = [t1; c1] → str_split "." num_var = [t2; c2] →
  queries (_create_bar_chart W cat_var num_var cat_label num_label).1
    = [bar_sql t1 c1 t2 c2 num_var].
Proof.
  intros H1 H2. rewrite (bar_chart_unfold W _ _ _ _ _ _ _ _ H1 H2).
  destruct (read_sql W (bar_sql t1 c1 t2 c2 num_var)) as [e|df] eqn:Hsql.
  - by rewrite (fetch_bind_fail W _ _ _ Hsql).
  - rewrite (fetch_bind_ok W _ _ _ Hsql), px_then_ret. done.
Qed.

Lemma line_chart_queries time_var num_var time_label num_label t1 c1 t2 c2 :
  str_split "." time_var = [t1; c1] → str_split "." num_var = [t2; c2] →
  queries (_create_line_chart W time_var num_var time_label num_label).1
    = [line_sql t1 c1 t2 c2 num_var].
Proof.
  intros H1 H2. rewrite (line_chart_unfold W _ _ _ _ _ _ _ _ H1 H2).
  destruct (read_sql W (line_sql t1 c1 t2 c2 num_var)) as [e|df] eqn:Hsql.
  - by rewrite (fetch_bind_fail W _ _ _ Hsql).
  - rewrite (fetch_bind_ok W _ _ _ Hsql), lenient_convert_eq.
    destruct (convert_time_column W df c1).2; cbn [fst snd mbind M_bind];
      rewrite (px_then_ret W _ (λ f, f)); done.
Qed.

Lemma grouped_bar_chart_queries var1 var2 num_var label1 label2 num_label
    t1 c1 t2 c2 t3 c3 :
  str_split "." var1 = [t1; c1] → str_split "." var2 = [t2; c2] →
  str_split "." num_var = [t3; c3] →
  queries (_create_grouped_bar_chart W var1 var2 (Some num_var)
             label1 label2 num_label).1
    = [grouped_sql t1 c1 t2 c2 t3 c3].
Proof.
  intros H1 H2 H3. rewrite (grouped_bar_chart_unfold W _ _ _ _ _ _ _ _ _ _ _ _ H1 H2 H3).
  destruct (read_sql W (grouped_sql t1 c1 t2 c2 t3 c3)) as [e|df] eqn:Hsql.
  - by rewrite (fetch_bind_fail W _ _ _ Hsql).
  - rewrite (fetch_bind_ok W _ _ _ Hsql), (px_then_ret W _ (λ f, f)). done.
Qed.

Lemma bubble_chart_queries var1 var2 label1 label2 t1 c1 t2 c2 :
  str_split "." var1 = [t1; c1] → str_split "." var2 = [t2; c2] →
  queries (_create_bubble_chart W var1 var2 label1 label2).1
    = [bubble_sql t1 c1 t2 c2].
Proof.
  intros H1 H2. rewrite (bubble_chart_unfold W _ _ _ _ _ _ _ _ H1 H2).
  destruct (read_sql W (bubble_sql t1 c1 t2 c2)) as [e|df] eqn:Hsql.
  - by rewrite (fetch_bind_fail W _ _ _ Hsql).
  - rewrite (fetch_bind_ok W _ _ _ Hsql).
    destruct (df_empty df); [done|]. by rewrite px_then_ret.
Qed.

Lemma multi_line_chart_queries time_var cat_var num_var time_label cat_label num_label
    t1 c1 t2 c2 t3 c3 :
  str_split "." time_var = [t1; c1] → str_split "." cat_var = [t2; c2] →
  str_split "." num_var = [t3; c3] →
  queries (_create_multi_line_chart W time_var cat_var (Some num_var)
             time_label cat_label num_label).1
    = [multi_line_sql t1 c1 t2 c2 t3 c3].
Proof.
  intros H1 H2 H3.
  rewrite (multi_line_chart_unfold W _ _ _ _ _ _ _ _ _ _ _ _ H1 H2 H3).
  destruct (read_sql W (multi_line_sql t1 c1 t2 c2 t3 c3)) as [e|df] eqn:Hsql.
  - by rewrite (fetch_bind_fail W _ _ _ Hsql).
  - rewrite (fetch_bind_ok W _ _ _ Hsql), lenient_convert_eq.
    destruct (convert_time_column W df c1).2; cbn [fst snd mbind M_bind];
      rewrite (px_then_ret W _ (λ f, f)); done.
Qed.

End Queries.

(** The accident-count field, which cases 3 and 5 aggregate. *)
Lemma accident_count_resolves :
  _get_internal_name "사고건수" = Some "ACCIDENT.(사고건수)".
Proof. by vm_compute. Qed.

(** The SQL text sent for two resolved labels does not depend on what the
    store and plotly answer. *)
Lemma dispatch_queries_world (W W' : World) var1 var2 label1 label2 type1 type2
    t1 c1 t2 c2 :
  str_split "." var1 = [t1; c1] → str_split "." var2 = [t2; c2] →
  queries (dispatch W var1 var2 label1 label2 type1 type2).1
    = queries (dispatch W' var1 var2 label1 label2 type1 type2).1.
Proof.
  intros H1 H2. unfold dispatch. rewrite accident_count_resolves.
  assert (str_split "." "ACCIDENT.(사고건수)" = ["ACCIDENT"; "(사고건수)"]) as H3
    by (by vm_compute).
  repeat match goal with
  | |- context [if ?b then _ else _] => destruct b
  end;
  rewrite ?(bar_chart_queries _ _ _ _ _ _ _ _ _ H1 H2),
    ?(bar_chart_queries _ _ _ _ _ _ _ _ _ H2 H1),
    ?(line_chart_queries _ _ _ _ _ _ _ _ _ H1 H2),
    ?(line_chart_queries _ _ _ _ _ _ _ _ _ H2 H1),
    ?(grouped_bar_chart_queries _ _ _ _ _ _ _ _ _ _ _ _ _ H1 H2 H3),
    ?(bubble_chart_queries _ _ _ _ _ _ _ _ _ H1 H2),
    ?(multi_line_chart_queries _ _ _ _ _ _ _ _ _ _ _ _ _ H1 H2 H3),
    ?(multi_line_chart_queries _ _ _ _ _ _ _ _ _ _ _ _ _ H2 H1 H3);
  reflexivity.
Qed.

Lemma generate_queries_world (W W' : World) (label1 label2 : string) :
  queries (generate_visualization W label1 label2).1
    = queries (generate_visualization W' label1 label2).1.
Proof.
  destruct (_get_internal_name label1) as [v1|] eqn:R1.
  2:{ unfold generate_visualization. by rewrite R1. }
  destruct (_get_internal_name label2) as [v2|] eqn:R2.
  2:{ unfold generate_visualization. rewrite R2. cbn. by destruct (truthy _). }
  destruct (resolved_split _ _ R1) as (t1 & c1 & H1).
  destruct (resolved_split _ _ R2) as (t2 & c2 & H2).
  rewrite !(generate_unfold _ _ _ _ _ R1 R2), !log_then. cbn [fst].
  rewrite !try_except_trace.
  change (queries (Log INFO ?m :: ?t)) with (queries t).
  rewrite !queries_app, (dispatch_queries_world W W' _ _ _ _ _ _ _ _ _ _ H1 H2).
  f_equal.
  by destruct (dispatch W _ _ _ _ _ _).2, (dispatch W' _ _ _ _ _ _).2.
Qed.
(** C1. When at least one of the two labels is not a display label of the
    catalog, [generate_visualization] returns [(None, "선택된 변수명을 찾을 수
    없습니다.")] with an empty trace: nothing is logged, no query is sent
    to the store and no chart is built. *)
Theorem C1_unresolved_label_fails (W : World) (label1 label2 : string) :
  label1 ∉ display_labels ∨ label2 ∉ display_labels →
  generate_visualization W label1 label2
    = ([], inr (None, "선택된 변수명을 찾을 수 없습니다."))
  ∧ queries (generate_visualization W label1 label2).1 = [].
Proof.
  intros H.
  assert (generate_visualization W label1 label2
          = ([], inr (None, "선택된 변수명을 찾을 수 없습니다."))) as ->; [|done].
  unfold generate_visualization.
  destruct H as [H|H]; apply resolve_None in H; rewrite H; cbn [truthy]; [done|].
  by destruct (truthy _).
Qed.

Lemma C1_unresolved_label_witness :
  generate_visualization (world_of monthly_frame) "unknown label" "사고건수"
    = ([], inr (None, "선택된 변수명을 찾을 수 없습니다."))
  ∧ queries (generate_visualization (world_of monthly_frame) "unknown label" "사고건수").1 = [].
Proof.
  apply C1_unresolved_label_fails. left.
  apply (bool_decide_unpack _). vm_compute. exact I.
Defined.

(** C2. [generate_visualization] never raises: for every world and every
    two labels it returns a pair.  Whatever exception [e] the body of its
    [try] block raises - from the store while the query runs, from plotly
    while the chart is built, or from the routine itself - is logged as an
    error and turned into [(None, "차트 생성 중 오류가 발생했습니다: " + str(e))]. *)
Theorem C2_exceptions_become_failures (W : World) (label1 label2 : string) :
  (∃ fig msg, (generate_visualization W label1 label2).2 = inr (fig, msg))
  ∧ (∀ var1 var2 e,
       _get_internal_name label1 = Some var1 →
       _get_internal_name label2 = Some var2 →
       (dispatch W var1 var2 label1 label2
          (_get_column_type var1) (_get_column_type var2)).2 = inl e →
       (generate_visualization W label1 label2).2
         = inr (None, "차트 생성 중 오류가 발생했습니다: " +:+ exn_str e)
       ∧ Log ERROR ("시각화 생성 중 오류: " +:+ exn_str e)
           ∈ (generate_visualization W label1 label2).1).
Proof.
  split.
  - unfold generate_visualization.
    destruct (truthy (_get_internal_name label1)) as [v1|]; [|by eexists _, _].
    destruct (truthy (_get_internal_name label2)) as [v2|]; [|by eexists _, _].
    rewrite bind_result; cbn [logging_info emit snd]. rewrite try_except_result.
    destruct (dispatch W v1 v2 label1 label2 _ _).2 as [e|[fig msg]];
      by eexists _, _.
  - intros var1 var2 e H1 H2 He.
    rewrite (generate_unfold W _ _ _ _ H1 H2), log_then.
    cbn [fst snd]. rewrite try_except_result, try_except_trace, He.
    split; [done|]. cbn. rewrite elem_of_cons, elem_of_app. right. right. left.
Qed.

Lemma C2_store_fault_witness :
  (generate_visualization store_down "지역명 (시군구)" "사고건수").2
    = inr (None, "차트 생성 중 오류가 발생했습니다: Can't connect to MySQL server")
  ∧ Log ERROR "시각화 생성 중 오류: Can't connect to MySQL server"
      ∈ (generate_visualization store_down "지역명 (시군구)" "사고건수").1.
Proof.
  apply (proj2 (C2_exceptions_become_failures store_down "지역명 (시군구)" "사고건수")
           "REGION.RegionName" "ACCIDENT.(사고건수)"
           (Exn "OperationalError" "Can't connect to MySQL server"));
    vm_compute; reflexivity.
Defined.

(** An exception of plotly is reported the same way. *)
Example plotly_fault_reported :
  (generate_visualization (plotly_down counts_frame) "중상자수" "경상자수").2
    = inr (None, "차트 생성 중 오류가 발생했습니다: Value of 'x' is not the name of a column").
Proof. vm_compute. reflexivity. Qed.

(** C3. For two labels that both resolve to numeric fields: when one of
    them is the accident-count label, the result is the failure
    [(None, "이 시각화는 '사고건수'를 지원하지 않습니다.")] and the trace holds only
    the start line, so no query is sent and no bubble chart is built; when
    neither is, the call is the guarded run of the bubble-chart routine on
    the two fields. *)
Theorem C3_numeric_pair_dispatch (W : World) (label1 label2 var1 var2 : string) :
  _get_internal_name label1 = Some var1 →
  _get_internal_name label2 = Some var2 →
  _get_column_type var1 = "수치형" →
  _get_column_type var2 = "수치형" →
  ("사고건수" ∈ [label1; label2] →
     generate_visualization W label1 label2
       = ([Log INFO (start_message label1 label2 "수치형" "수치형")],
          inr (None, "이 시각화는 '사고건수'를 지원하지 않습니다."))
     ∧ queries (generate_visualization W label1 label2).1 = []
     ∧ plots (generate_visualization W label1 label2).1 = [])
  ∧ ("사고건수" ∉ [label1; label2] →
     generate_visualization W label1 label2
       = (logging_info (start_message label1 label2 "수치형" "수치형");;
          try_except (_create_bubble_chart W var1 var2 label1 label2) on_error)).
Proof.
  intros H1 H2 T1 T2.
  rewrite (generate_unfold W _ _ _ _ H1 H2), T1, T2.
  unfold dispatch. cbn [String.eqb Ascii.eqb Bool.eqb andb].
  split; intros Hin.
  - rewrite bool_decide_eq_true_2 by done. done.
  - rewrite bool_decide_eq_false_2 by done. done.
Qed.

Lemma C3_numeric_pair_witness :
  ("사고건수" ∈ ["사고건수"; "중상자수"] →
     generate_visualization (world_of counts_frame) "사고건수" "중상자수"
       = ([Log INFO (start_message "사고건수" "중상자수" "수치형" "수치형")],
          inr (None, "이 시각화는 '사고건수'를 지원하지 않습니다."))
     ∧ queries (generate_visualization (world_of counts_frame) "사고건수" "중상자수").1 = []
     ∧ plots (generate_visualization (world_of counts_frame) "사고건수" "중상자수").1 = [])
  ∧ ("사고건수" ∉ ["사고건수"; "중상자수"] →
     generate_visualization (world_of counts_frame) "사고건수" "중상자수"
       = (logging_info (start_message "사고건수" "중상자수" "수치형" "수치형");;
          try_except
            (_create_bubble_chart (world_of counts_frame)
               "ACCIDENT.(사고건수)" "ACCIDENT.SevereInjuryCount" "사고건수" "중상자수")
            on_error)).
Proof.
  apply C3_numeric_pair_dispatch; vm_compute; reflexivity.
Defined.

(** Outside the dispatch table every test of the dispatcher fails. *)
Lemma outside_table_branch (type1 type2 a b : string) :
  in_dispatch_table type1 type2 = false →
  in_dispatch_table a b = true →
  String.eqb type1 a && String.eqb type2 b = false.
Proof.
  intros Hout Hin.
  destruct (String.eqb_spec type1 a) as [->|_]; [|done].
  destruct (String.eqb_spec type2 b) as [->|_]; [|done].
  congruence.
Qed.

(** C10. Two labels that resolve but whose type pair is outside the
    dispatch table, and two numeric labels one of which is the
    accident-count label, are rejected at dispatch: the result is a
    failure and the trace holds only the start line, so no SQL text is
    built and handed to the fetch routine. *)
Theorem C10_rejected_before_any_query (W : World) (label1 label2 var1 var2 : string) :
  _get_internal_name label1 = Some var1 →
  _get_internal_name label2 = Some var2 →
  in_dispatch_table (_get_column_type var1) (_get_column_type var2) = false
  ∨ (_get_column_type var1 = "수치형" ∧ _get_column_type var2 = "수치형"
     ∧ "사고건수" ∈ [label1; label2]) →
  ∃ msg,
    generate_visualization W label1 label2
      = ([Log INFO (start_message label1 label2
                      (_get_column_type var1) (_get_column_type var2))],
         inr (None, msg))
    ∧ msg = (if in_dispatch_table (_get_column_type var1) (_get_column_type var2)
             then "이 시각화는 '사고건수'를 지원하지 않습니다."
             else "선택된 조합에 대한 시각화를 생성할 수 없습니다.")
    ∧ queries (generate_visualization W label1 label2).1 = [].
Proof.
  intros H1 H2 Hrej.
  rewrite (generate_unfold W _ _ _ _ H1 H2).
  set (type1 := _get_column_type var1) in *. set (type2 := _get_column_type var2) in *.
  assert (dispatch W var1 var2 label1 label2 type1 type2
          = mret (None, if in_dispatch_table type1 type2
                        then "이 시각화는 '사고건수'를 지원하지 않습니다."
                        else "선택된 조합에 대한 시각화를 생성할 수 없습니다.")) as ->.
  { destruct Hrej as [Hout|(T1 & T2 & Hin)].
    - rewrite Hout. unfold dispatch.
      rewrite !(outside_table_branch _ _ _ _ Hout) by (vm_compute; reflexivity).
      reflexivity.
    - rewrite T1, T2. unfold dispatch. cbn [String.eqb Ascii.eqb Bool.eqb andb].
      by rewrite bool_decide_eq_true_2. }
  eexists. split; [reflexivity|]. split; reflexivity.
Qed.

Lemma C10_rejected_witness :
  ∃ msg,
    generate_visualization (world_of monthly_frame) "발생년월" "발생년월"
      = ([Log INFO (start_message "발생년월" "발생년월"
                      (_get_column_type "ACCIDENT.OccurYearMonth")
                      (_get_column_type "ACCIDENT.OccurYearMonth"))],
         inr (None, msg))
    ∧ msg = (if in_dispatch_table (_get_column_type "ACCIDENT.OccurYearMonth")
                  (_get_column_type "ACCIDENT.OccurYearMonth")
             then "이 시각화는 '사고건수'를 지원하지 않습니다."
             else "선택된 조합에 대한 시각화를 생성할 수 없습니다.")
    ∧ queries (generate_visualization (world_of monthly_frame) "발생년월" "발생년월").1 = [].
Proof.
  apply C10_rejected_before_any_query;
    [vm_compute; reflexivity | vm_compute; reflexivity | left; vm_compute; reflexivity].
Defined.

(** ** The bubble chart *)





(** Through the dispatcher the same world turns the label chosen twice into
    a failure that carries plotly's exception. *)
Example same_numeric_label_twice :
  (generate_visualization duplicate_world "중상자수" "중상자수").2
    = inr (None, "차트 생성 중 오류가 발생했습니다: duplicate column names").
Proof. vm_compute. reflexivity. Qed.

(** ** The temporal dimension *)

(** The conversion of a frame with exactly one column of the given name is
    the conversion of that column, written back. *)
Lemma convert_time_column_unique (W : World) (df : DataFrame) (c1 : string) (i : nat) :
  positions c1 (columns df) 0 = [i] →
  (convert_time_column W df c1).2 =
    match to_datetime W "%Y%m" (column_values df i) with
    | inl e => inl e
    | inr vals => inr (df_setitem df i vals)
    end.
Proof.
  intros Hpos. unfold convert_time_column, df_getitem. rewrite Hpos, ret_bind.
  cbn [pd_to_datetime]. destruct (to_datetime W _ _); [done|]. by rewrite ret_bind.
Qed.

Lemma df_setitem_lookup (df : DataFrame) (i : nat) (vals : list cell) k row :
  rows df !! k = Some row →
  rows (df_setitem df i vals) !! k = Some (<[i := default VNull (vals !! k)]> row).
Proof. intros H. cbn. by rewrite list_lookup_imap, H. Qed.

(** The lenient conversion keeps the column names and the number of rows,
    and either logs nothing or logs one warning and keeps the frame. *)
Lemma lenient_convert_shape (W : World) (df : DataFrame) (c1 : string)
    (t : list event) df' :
  lenient_convert W df c1 = (t, inr df') →
  columns df' = columns df ∧ length (rows df') = length (rows df)
  ∧ (t = [] ∨ ∃ e, t = [Log WARNING (time_conversion_warning e)] ∧ df' = df).
Proof.
  rewrite lenient_convert_eq.
  destruct (convert_time_column W df c1).2 as [e|d] eqn:Hc.
  { intros [= <- <-]. split_and!; [done|done|]. right. by exists e. }
  intros [= <- <-]. revert Hc. unfold convert_time_column, df_getitem.
  destruct (positions c1 (columns df) 0) as [|i [|j l]]; [done| |done].
  rewrite ret_bind. cbn [pd_to_datetime].
  destruct (to_datetime W _ _) as [|vals'] eqn:Hv; [done|].
  rewrite ret_bind. cbn. intros [= <-]. split_and!; [done| |by left]. cbn.
  by rewrite length_imap.
Qed.

(** C7. The line and the multi-line routine hand the temporal column of
    the fetched frame to [pd.to_datetime] with the fixed format [%Y%m].
    When the conversion returns, its values are written back into that
    column row by row - a stored "202201" that it reads as January 2022 is
    plotted as January 2022 - and no warning is logged.  When it raises [e],
    as on a malformed "abcd12", exactly one warning carrying [e] is logged and
    the fetched frame is plotted as it is.  Either way the routine goes on to
    the plotly call over a frame with every fetched row: the outcome is that
    of the plotly call, never an abort of the conversion. *)
Theorem C7_temporal_parse_is_lenient (W : World) :
  (∀ time_var num_var time_label num_label t1 c1 t2 c2 df i,
     str_split "." time_var = [t1; c1] → str_split "." num_var = [t2; c2] →
     read_sql W (line_sql t1 c1 t2 c2 num_var) = inr df →
     positions c1 (columns df) 0 = [i] →
     match to_datetime W "%Y%m" (column_values df i) with
     | inr vals =>
         warnings (_create_line_chart W time_var num_var time_label num_label).1 = []
         ∧ plots (_create_line_chart W time_var num_var time_label num_label).1 = [PxLine]
         ∧ (_create_line_chart W time_var num_var time_label num_label).2
             = chart_of W (line_call (df_setitem df i vals) c1 time_label num_label)
                 (line_title time_label num_label)
     | inl e =>
         warnings (_create_line_chart W time_var num_var time_label num_label).1
           = [time_conversion_warning e]
         ∧ plots (_create_line_chart W time_var num_var time_label num_label).1 = [PxLine]
         ∧ (_create_line_chart W time_var num_var time_label num_label).2
             = chart_of W (line_call df c1 time_label num_label)
                 (line_title time_label num_label)
     end)
  ∧ (∀ time_var cat_var num_var time_label cat_label num_label
       t1 c1 t2 c2 t3 c3 df i,
       str_split "." time_var = [t1; c1] → str_split "." cat_var = [t2; c2] →
       str_split "." num_var = [t3; c3] →
       read_sql W (multi_line_sql t1 c1 t2 c2 t3 c3) = inr df →
       positions c1 (columns df) 0 = [i] →
       match to_datetime W "%Y%m" (column_values df i) with
       | inr vals =>
           warnings (_create_multi_line_chart W time_var cat_var (Some num_var)
                       time_label cat_label num_label).1 = []
           ∧ plots (_create_multi_line_chart W time_var cat_var (Some num_var)
                      time_label cat_label num_label).1 = [PxLine]
           ∧ (_create_multi_line_chart W time_var cat_var (Some num_var)
                time_label cat_label num_label).2
               = chart_of W
                   (multi_line_call (df_setitem df i vals) c1 c2
                      time_label cat_label num_label)
                   (multi_line_title time_label cat_label num_label)
       | inl e =>
           warnings (_create_multi_line_chart W time_var cat_var (Some num_var)
                       time_label cat_label num_label).1
             = [time_conversion_warning e]
           ∧ plots (_create_multi_line_chart W time_var cat_var (Some num_var)
                      time_label cat_label num_label).1 = [PxLine]
           ∧ (_create_multi_line_chart W time_var cat_var (Some num_var)
                time_label cat_label num_label).2
               = chart_of W (multi_line_call df c1 c2 time_label cat_label num_label)
                   (multi_line_title time_label cat_label num_label)
       end)
  ∧ (∀ df i vals k row v,
       rows df !! k = Some row → (i < length row)%nat → vals !! k = Some v →
       ∃ row', rows (df_setitem df i vals) !! k = Some row'
               ∧ row' !! i = Some v ∧ length row' = length row
               ∧ ∀ j, j ≠ i → row' !! j = row !! j)
  ∧ (∀ time_var num_var time_label num_label t1 c1 t2 c2 df,
       str_split "." time_var = [t1; c1] → str_split "." num_var = [t2; c2] →
       read_sql W (line_sql t1 c1 t2 c2 num_var) = inr df →
       ∃ df',
         (_create_line_chart W time_var num_var time_label num_label).2
           = chart_of W (line_call df' c1 time_label num_label)
               (line_title time_label num_label)
         ∧ columns df' = columns df ∧ length (rows df') = length (rows df)
         ∧ (warnings (_create_line_chart W time_var num_var time_label num_label).1 = []
            ∨ ∃ e, warnings (_create_line_chart W time_var num_var
                               time_label num_label).1
                     = [time_conversion_warning e] ∧ df' = df))
  ∧ (∀ time_var cat_var num_var time_label cat_label num_label
       t1 c1 t2 c2 t3 c3 df,
       str_split "." time_var = [t1; c1] → str_split "." cat_var = [t2; c2] →
       str_split "." num_var = [t3; c3] →
       read_sql W (multi_line_sql t1 c1 t2 c2 t3 c3) = inr df →
       ∃ df',
         (_create_multi_line_chart W time_var cat_var (Some num_var)
            time_label cat_label num_label).2
           = chart_of W (multi_line_call df' c1 c2 time_label cat_label num_label)
               (multi_line_title time_label cat_label num_label)
         ∧ columns df' = columns df ∧ length (rows df') = length (rows df)
         ∧ (warnings (_create_multi_line_chart W time_var cat_var (Some num_var)
                        time_label cat_label num_label).1 = []
            ∨ ∃ e, warnings (_create_multi_line_chart W time_var cat_var (Some num_var)
                               time_label cat_label num_label).1
                     = [time_conversion_warning e] ∧ df' = df)).
Proof.
  split_and!.
  - intros tv nv tl nl t1 c1 t2 c2 df i H1 H2 Hsql Hpos.
    rewrite (line_chart_unfold W _ _ _ _ _ _ _ _ H1 H2), (fetch_bind_ok W _ _ _ Hsql).
    rewrite lenient_convert_eq, (convert_time_column_unique W _ _ _ Hpos).
    destruct (to_datetime W "%Y%m" (column_values df i)) as [e|vals];
      cbn [fst snd mbind M_bind]; rewrite (px_then_ret W _ (λ f, f));
      unfold chart_of; cbn; done.
  - intros tv cv nv tl cl nl t1 c1 t2 c2 t3 c3 df i H1 H2 H3 Hsql Hpos.
    rewrite (multi_line_chart_unfold W _ _ _ _ _ _ _ _ _ _ _ _ H1 H2 H3),
      (fetch_bind_ok W _ _ _ Hsql).
    rewrite lenient_convert_eq, (convert_time_column_unique W _ _ _ Hpos).
    destruct (to_datetime W "%Y%m" (column_values df i)) as [e|vals];
      cbn [fst snd mbind M_bind]; rewrite (px_then_ret W _ (λ f, f));
      unfold chart_of; cbn; done.
  - intros df i vals k row v Hrow Hi Hv.
    eexists. split; [by apply df_setitem_lookup|]. rewrite Hv. cbn [default].
    split_and!.
    + by apply list_lookup_insert_eq.
    + by rewrite length_insert.
    + intros j Hj. by apply list_lookup_insert_ne.
  - intros tv nv tl nl t1 c1 t2 c2 df H1 H2 Hsql.
    rewrite (line_chart_unfold W _ _ _ _ _ _ _ _ H1 H2), (fetch_bind_ok W _ _ _ Hsql).
    destruct (lenient_convert W df c1) as [t [e|df']] eqn:Hl.
    { rewrite lenient_convert_eq in Hl. by destruct (convert_time_column W df c1).2. }
    destruct (lenient_convert_shape W _ _ _ _ Hl) as (Hc & Hr & Ht).
    exists df'. cbn [fst snd mbind M_bind]. rewrite (px_then_ret W _ (λ f, f)).
    unfold chart_of. cbn [fst snd]. split_and!; [done|done|done|].
    destruct Ht as [->|(e & -> & ->)]; [by left|right; by exists e].
  - intros tv cv nv tl cl nl t1 c1 t2 c2 t3 c3 df H1 H2 H3 Hsql.
    rewrite (multi_line_chart_unfold W _ _ _ _ _ _ _ _ _ _ _ _ H1 H2 H3),
      (fetch_bind_ok W _ _ _ Hsql).
    destruct (lenient_convert W df c1) as [t [e|df']] eqn:Hl.
    { rewrite lenient_convert_eq in Hl. by destruct (convert_time_column W df c1).2. }
    destruct (lenient_convert_shape W _ _ _ _ Hl) as (Hc & Hr & Ht).
    exists df'. cbn [fst snd mbind M_bind]. rewrite (px_then_ret W _ (λ f, f)).
    unfold chart_of. cbn [fst snd]. split_and!; [done|done|done|].
    destruct Ht as [->|(e & -> & ->)]; [by left|right; by exists e].
Qed.

Lemma C7_temporal_parse_witness :
  warnings (_create_line_chart (world_of monthly_frame)
              "ACCIDENT.OccurYearMonth" "ACCIDENT.DeathCount" "발생년월" "사망자수").1 = []
  ∧ plots (_create_line_chart (world_of monthly_frame)
             "ACCIDENT.OccurYearMonth" "ACCIDENT.DeathCount" "발생년월" "사망자수").1
      = [PxLine]
  ∧ (_create_line_chart (world_of monthly_frame)
       "ACCIDENT.OccurYearMonth" "ACCIDENT.DeathCount" "발생년월" "사망자수").2
      = chart_of (world_of monthly_frame)
          (line_call (df_setitem monthly_frame 0 [VTime 2022 1; VTime 2022 2])
             "OccurYearMonth" "발생년월" "사망자수")
          (line_title "발생년월" "사망자수").
Proof.
  exact (proj1 (C7_temporal_parse_is_lenient (world_of monthly_frame))
           "ACCIDENT.OccurYearMonth" "ACCIDENT.DeathCount" "발생년월" "사망자수"
           "ACCIDENT" "OccurYearMonth" "ACCIDENT" "DeathCount" monthly_frame 0%nat
           eq_refl eq_refl eq_refl eq_refl).
Defined.

(** In a world whose conversion reads "202201" as January 2022, the month is
    plotted as January 2022; in one whose conversion raises on "abcd12", the
    warning is logged and the frame is plotted as fetched. *)
Example line_chart_converts_months :
  (_create_line_chart (world_of monthly_frame)
     "ACCIDENT.OccurYearMonth" "ACCIDENT.DeathCount" "발생년월" "사망자수").2
    = inr (Some (new_figure
             (line_call {| columns := ["OccurYearMonth"; "Value"];
                           rows := [[VTime 2022 1; VInt 7]; [VTime 2022 2; VInt 3]] |}
                "OccurYearMonth" "발생년월" "사망자수")),
           line_title "발생년월" "사망자수").
Proof. vm_compute. reflexivity. Qed.

Example line_chart_keeps_malformed_months :
  warnings (_create_line_chart (world_of malformed_frame)
              "ACCIDENT.OccurYearMonth" "ACCIDENT.DeathCount" "발생년월" "사망자수").1
    = [time_conversion_warning (sample_parse_error "abcd12")]
  ∧ (_create_line_chart (world_of malformed_frame)
       "ACCIDENT.OccurYearMonth" "ACCIDENT.DeathCount" "발생년월" "사망자수").2
    = inr (Some (new_figure
             (line_call malformed_frame "OccurYearMonth" "발생년월" "사망자수")),
           line_title "발생년월" "사망자수").
Proof. vm_compute. split; reflexivity. Qed.

(** ** Query texts *)




(** C5. The query of every routine, for any identifiers [Table.Column],
    reads [FROM ACCIDENT] followed by the joins of the owning tables of the
    involved fields; that join text holds the DRIVER join exactly when DRIVER
    is among those tables and the REGION join exactly when REGION is, and is
    empty when neither is.  For two catalog labels the same is read off the
    query that is sent. *)
Theorem C5_joins_follow_owning_tables (W : World) :
  (∀ cat_var num_var cat_label num_label t1 c1 t2 c2,
     str_split "." cat_var = [t1; c1] → str_split "." num_var = [t2; c2] →
     queries (_create_bar_chart W cat_var num_var cat_label num_label).1
       = [select_one t1 c1 (select_col2_of num_var t2 c2)
            +:+ " " +:+ "FROM ACCIDENT" +:+ " " +:+ joins_for [t1; t2] +:+ " "
            +:+ ("GROUP BY " +:+ t1 +:+ "." +:+ c1) +:+ " ORDER BY Value DESC LIMIT 20"]
     ∧ queries (_create_line_chart W cat_var num_var cat_label num_label).1
       = [select_one t1 c1 (select_col2_of num_var t2 c2)
            +:+ " " +:+ "FROM ACCIDENT" +:+ " " +:+ joins_for [t1; t2] +:+ " "
            +:+ ("GROUP BY " +:+ t1 +:+ "." +:+ c1) +:+ " "
            +:+ ("ORDER BY " +:+ t1 +:+ "." +:+ c1)]
     ∧ queries (_create_bubble_chart W cat_var num_var cat_label num_label).1
       = [("SELECT " +:+ t1 +:+ "." +:+ c1 +:+ ", " +:+ t2 +:+ "." +:+ c2
             +:+ ", COUNT(ACCIDENT.AccidentID) AS BubbleSize")
            +:+ " " +:+ "FROM ACCIDENT" +:+ " " +:+ joins_for [t1; t2] +:+ " "
            +:+ ("GROUP BY " +:+ t1 +:+ "." +:+ c1 +:+ ", " +:+ t2 +:+ "." +:+ c2)])
  ∧ (∀ var1 var2 num_var label1 label2 num_label t1 c1 t2 c2 t3 c3,
       str_split "." var1 = [t1; c1] → str_split "." var2 = [t2; c2] →
       str_split "." num_var = [t3; c3] →
       queries (_create_grouped_bar_chart W var1 var2 (Some num_var)
                  label1 label2 num_label).1
         = [select_two t1 c1 t2 c2 (agg_val_of t3 c3)
              +:+ " " +:+ "FROM ACCIDENT" +:+ " " +:+ joins_for [t1; t2; t3] +:+ " "
              +:+ ("GROUP BY " +:+ t1 +:+ "." +:+ c1 +:+ ", " +:+ t2 +:+ "." +:+ c2)]
       ∧ queries (_create_multi_line_chart W var1 var2 (Some num_var)
                    label1 label2 num_label).1
         = [select_two t1 c1 t2 c2 (agg_val_of t3 c3)
              +:+ " " +:+ "FROM ACCIDENT" +:+ " " +:+ joins_for [t1; t2; t3] +:+ " "
              +:+ ("GROUP BY " +:+ t1 +:+ "." +:+ c1 +:+ ", " +:+ t2 +:+ "." +:+ c2)
              +:+ " " +:+ ("ORDER BY " +:+ t1 +:+ "." +:+ c1)])
  ∧ (∀ tables : list string,
       str_contains JOIN_DRIVER (joins_for tables) = bool_decide ("DRIVER" ∈ tables)
       ∧ str_contains JOIN_REGION (joins_for tables) = bool_decide ("REGION" ∈ tables)
       ∧ ("DRIVER" ∉ tables → "REGION" ∉ tables → joins_for tables = ""))
  ∧ (∀ label1 label2 var1 var2 q,
       _get_internal_name label1 = Some var1 →
       _get_internal_name label2 = Some var2 →
       q ∈ queries (generate_visualization W label1 label2).1 →
       str_contains " FROM ACCIDENT " q = true
       ∧ str_contains JOIN_DRIVER q = bool_decide ("DRIVER" ∈ [owner var1; owner var2])
       ∧ str_contains JOIN_REGION q = bool_decide ("REGION" ∈ [owner var1; owner var2])
       ∧ str_contains "JOIN" q
           = negb (String.eqb (owner var1) "ACCIDENT" && String.eqb (owner var2) "ACCIDENT")).
Proof.
  split_and!.
  - intros cv nv cl nl t1 c1 t2 c2 H1 H2.
    rewrite (bar_chart_queries W _ _ _ _ _ _ _ _ H1 H2),
      (line_chart_queries W _ _ _ _ _ _ _ _ H1 H2),
      (bubble_chart_queries W _ _ _ _ _ _ _ _ H1 H2). done.
  - intros v1 v2 nv l1 l2 nl t1 c1 t2 c2 t3 c3 H1 H2 H3.
    rewrite (grouped_bar_chart_queries W _ _ _ _ _ _ _ _ _ _ _ _ H1 H2 H3),
      (multi_line_chart_queries W _ _ _ _ _ _ _ _ _ _ _ _ H1 H2 H3). done.
  - intros tables. unfold joins_for.
    destruct (bool_decide ("DRIVER" ∈ tables)) eqn:HD;
      destruct (bool_decide ("REGION" ∈ tables)) eqn:HR;
      (split_and!; [by vm_compute | by vm_compute |]);
      try (apply bool_decide_eq_true in HD; by intros []);
      try (apply bool_decide_eq_true in HR; by intros _ []); done.
  - intros l1 l2 v1 v2 q R1 R2.
    rewrite (generate_queries_world W store_down). intros Hq.
    pose proof (catalog_forall2
      (λ l1 v1 l2 v2,
         forallb (λ q,
             str_contains " FROM ACCIDENT " q
             && Bool.eqb (str_contains JOIN_DRIVER q)
                  (bool_decide ("DRIVER" ∈ [owner v1; owner v2]))
             && Bool.eqb (str_contains JOIN_REGION q)
                  (bool_decide ("REGION" ∈ [owner v1; owner v2]))
             && Bool.eqb (str_contains "JOIN" q)
                  (negb (String.eqb (owner v1) "ACCIDENT"
                         && String.eqb (owner v2) "ACCIDENT")))
           (queries (generate_visualization store_down l1 l2).1))) as Hall.
    cbv beta in Hall. specialize (Hall ltac:(vm_compute; reflexivity) _ _ _ _ R1 R2).
    rewrite forallb_forall in Hall. apply list_elem_of_In, Hall in Hq.
    apply andb_prop in Hq as [Hq H4]. apply andb_prop in Hq as [Hq H3].
    apply andb_prop in Hq as [H0 H2].
    apply Bool.eqb_prop in H2, H3, H4. done.
Qed.

Lemma C5_joins_witness :
  queries (_create_bar_chart (world_of counts_frame)
             "REGION.RegionName" "ACCIDENT.DeathCount" "지역명 (시군구)" "사망자수").1
    = [select_one "REGION" "RegionName"
         (select_col2_of "ACCIDENT.DeathCount" "ACCIDENT" "DeathCount")
         +:+ " " +:+ "FROM ACCIDENT" +:+ " " +:+ joins_for ["REGION"; "ACCIDENT"] +:+ " "
         +:+ ("GROUP BY " +:+ "REGION" +:+ "." +:+ "RegionName")
         +:+ " ORDER BY Value DESC LIMIT 20"].
Proof.
  apply (proj1 (C5_joins_follow_owning_tables (world_of counts_frame))
           "REGION.RegionName" "ACCIDENT.DeathCount" "지역명 (시군구)" "사망자수");
    reflexivity.
Defined.

(** ** The aggregate *)

Lemma config_get_Some k v items : config_get k items = Some v → (k, v) ∈ items.
Proof.
  induction items as [|[k' v'] items IH]; cbn; [done|].
  destruct (String.eqb_spec k' k) as [->|_].
  - intros [= ->]. left.
  - intros H. right. by apply IH.
Qed.

(** For a numeric field of the catalog both aggregate selections of the
    code are the prescribed one. *)
Lemma numeric_field_aggregate (num_var : string) :
  _get_column_type num_var = "수치형" →
  ∃ t2 c2, str_split "." num_var = [t2; c2]
           ∧ select_col2_of num_var t2 c2 = aggregate_of num_var
           ∧ agg_val_of t2 c2 = aggregate_of num_var.
Proof.
  unfold _get_column_type.
  destruct (config_get num_var COLUMN_CONFIG) as [info|] eqn:Hget; [|done].
  intros Hty. apply config_get_Some in Hget.
  assert (forallb (λ kv : string * column_info,
            implb (String.eqb (info_type kv.2) "수치형")
              match str_split "." kv.1 with
              | [t; c] => bool_decide (select_col2_of kv.1 t c = aggregate_of kv.1)
                          && bool_decide (agg_val_of t c = aggregate_of kv.1)
              | _ => false
              end) COLUMN_CONFIG = true) as Hall by (by vm_compute).
  rewrite forallb_forall in Hall. apply list_elem_of_In, Hall in Hget.
  cbn [fst snd] in Hget. rewrite Hty in Hget. cbn [String.eqb Ascii.eqb Bool.eqb implb] in Hget.
  destruct (str_split "." num_var) as [|t [|c [|]]]; try done.
  apply andb_prop in Hget as [H1%bool_decide_eq_true H2%bool_decide_eq_true]. eauto.
Qed.

(** C6. For a numeric field of the catalog, the aggregate is
    [COUNT(ACCIDENT.AccidentID)] exactly when the field is the accident-count
    pseudo-field [ACCIDENT.(사고건수)] and [SUM] of the field's column
    otherwise; the bar, the line, the grouped-bar and the multi-line routine
    each send one query over that field, and it starts with the select
    clause holding that aggregate [AS Value], followed by [FROM ACCIDENT].
    The bubble routine, whose value is the accident count, sends one query
    whose aggregate is the one of the accident-count field. *)
Theorem C6_aggregate_is_count_or_sum (W : World) (num_var : string) :
  _get_column_type num_var = "수치형" →
  (aggregate_of num_var = "COUNT(ACCIDENT.AccidentID)" ↔ num_var = "ACCIDENT.(사고건수)")
  ∧ (num_var ≠ "ACCIDENT.(사고건수)" → aggregate_of num_var = "SUM(" +:+ num_var +:+ ")")
  ∧ (∀ dim dim_label num_label t1 c1,
       str_split "." dim = [t1; c1] →
       (∃ q, queries (_create_bar_chart W dim num_var dim_label num_label).1 = [q]
             ∧ str_startswith
                 (select_one t1 c1 (aggregate_of num_var) +:+ " FROM ACCIDENT ") q = true)
       ∧ (∃ q, queries (_create_line_chart W dim num_var dim_label num_label).1 = [q]
               ∧ str_startswith
                   (select_one t1 c1 (aggregate_of num_var) +:+ " FROM ACCIDENT ") q
                 = true))
  ∧ (∀ var1 var2 label1 label2 num_label t1 c1 t2 c2,
       str_split "." var1 = [t1; c1] → str_split "." var2 = [t2; c2] →
       (∃ q, queries (_create_grouped_bar_chart W var1 var2 (Some num_var)
                        label1 label2 num_label).1 = [q]
             ∧ str_startswith
                 (select_two t1 c1 t2 c2 (aggregate_of num_var) +:+ " FROM ACCIDENT ") q
               = true)
       ∧ (∃ q, queries (_create_multi_line_chart W var1 var2 (Some num_var)
                          label1 label2 num_label).1 = [q]
               ∧ str_startswith
                   (select_two t1 c1 t2 c2 (aggregate_of num_var) +:+ " FROM ACCIDENT ") q
                 = true))
  ∧ (∀ var1 var2 label1 label2 t1 c1 t2 c2,
       str_split "." var1 = [t1; c1] → str_split "." var2 = [t2; c2] →
       ∃ q, queries (_create_bubble_chart W var1 var2 label1 label2).1 = [q]
            ∧ str_startswith
                (select_bubble t1 c1 t2 c2 (aggregate_of "ACCIDENT.(사고건수)")
                   +:+ " FROM ACCIDENT ") q = true).
Proof.
  intros Hty.
  destruct (numeric_field_aggregate _ Hty) as (t3 & c3 & H3 & Hsel & Hagg).
  split_and!.
  - unfold aggregate_of. destruct (String.eqb_spec num_var "ACCIDENT.(사고건수)"); [done|].
    split; [|done]. intros H. vm_compute in H. discriminate.
  - intros Hne. unfold aggregate_of.
    by destruct (String.eqb_spec num_var "ACCIDENT.(사고건수)").
  - intros dim dl nl t1 c1 H1.
    rewrite (bar_chart_queries W _ _ _ _ _ _ _ _ H1 H3),
      (line_chart_queries W _ _ _ _ _ _ _ _ H1 H3).
    unfold bar_sql, line_sql. rewrite Hsel. fold (select_one t1 c1 (aggregate_of num_var)).
    split; (eexists; split; [reflexivity|]);
      unfold str_startswith; apply prefix_app_same; apply (prefix_app_l " FROM ACCIDENT ").
  - intros v1 v2 l1 l2 nl t1 c1 t2 c2 H1 H2.
    rewrite (grouped_bar_chart_queries W _ _ _ _ _ _ _ _ _ _ _ _ H1 H2 H3),
      (multi_line_chart_queries W _ _ _ _ _ _ _ _ _ _ _ _ H1 H2 H3).
    unfold grouped_sql, multi_line_sql. rewrite Hagg.
    fold (select_two t1 c1 t2 c2 (aggregate_of num_var)).
    split; (eexists; split; [reflexivity|]);
      unfold str_startswith; apply prefix_app_same; apply (prefix_app_l " FROM ACCIDENT ").
  - intros v1 v2 l1 l2 t1 c1 t2 c2 H1 H2.
    rewrite (bubble_chart_queries W _ _ _ _ _ _ _ _ H1 H2).
    eexists. split; [reflexivity|]. unfold bubble_sql, str_startswith.
    change ("SELECT " +:+ t1 +:+ "." +:+ c1 +:+ ", " +:+ t2 +:+ "." +:+ c2
              +:+ ", COUNT(ACCIDENT.AccidentID) AS BubbleSize")
      with (select_bubble t1 c1 t2 c2 (aggregate_of "ACCIDENT.(사고건수)")).
    apply prefix_app_same; apply (prefix_app_l " FROM ACCIDENT ").
Qed.

Lemma C6_aggregate_witness :
  ∃ q, queries (_create_bar_chart (world_of region_frame)
                  "REGION.RegionName" "ACCIDENT.DeathCount"
                  "지역명 (시군구)" "사망자수").1 = [q]
       ∧ str_startswith
           (select_one "REGION" "RegionName" (aggregate_of "ACCIDENT.DeathCount")
              +:+ " FROM ACCIDENT ") q = true.
Proof.
  apply (proj1 (proj1 (proj2 (proj2 (C6_aggregate_is_count_or_sum
                  (world_of region_frame) "ACCIDENT.DeathCount"
                  ltac:(vm_compute; reflexivity))))
           "REGION.RegionName" "지역명 (시군구)" "사망자수" "REGION" "RegionName"
           ltac:(reflexivity))).
Defined.

(** The aggregates that are sent for a summed field and for the accident
    count. *)
Example bar_chart_sums_deaths :
  queries (_create_bar_chart (world_of region_frame)
             "REGION.RegionName" "ACCIDENT.DeathCount" "지역명 (시군구)" "사망자수").1
    = ["SELECT REGION.RegionName, SUM(ACCIDENT.DeathCount) AS Value FROM ACCIDENT  JOIN REGION ON ACCIDENT.RegionCode = REGION.RegionCode GROUP BY REGION.RegionName ORDER BY Value DESC LIMIT 20"].
Proof. vm_compute. reflexivity. Qed.

Example bar_chart_counts_accidents :
  queries (_create_bar_chart (world_of region_frame)
             "REGION.RegionName" "ACCIDENT.(사고건수)" "지역명 (시군구)" "사고건수").1
    = ["SELECT REGION.RegionName, COUNT(ACCIDENT.AccidentID) AS Value FROM ACCIDENT  JOIN REGION ON ACCIDENT.RegionCode = REGION.RegionCode GROUP BY REGION.RegionName ORDER BY Value DESC LIMIT 20"].
Proof. vm_compute. reflexivity. Qed.

(** * The dispatcher as a whole *)

(** ** The routines as plans *)

Lemma str_contains_prefix (x s : string) :
  String.prefix x s = true → str_contains x s = true.
Proof. intros H. destruct s; cbn [str_contains]; by rewrite H. Qed.

Lemma str_contains_here (x r : string) : str_contains x (x +:+ r) = true.
Proof. apply str_contains_prefix, prefix_app_l. Qed.

Lemma str_contains_app_r (x a s : string) :
  str_contains x s = true → str_contains x (a +:+ s) = true.
Proof.
  intros H. induction a as [|c a IH]; [done|].
  change (String c a +:+ s) with (String c (a +:+ s)).
  cbn [str_contains]. rewrite IH. apply orb_true_r.
Qed.

Ltac find_sub :=
  first [ apply str_contains_here | apply str_contains_app_r; find_sub ].

Ltac find_elem :=
  first [ apply list_elem_of_here | apply list_elem_of_further; find_elem ].

Section Plans.

Context (W : World).

Lemma bar_chart_plan cat_var num_var cat_label num_label t1 c1 t2 c2 :
  str_split "." cat_var = [t1; c1] → str_split "." num_var = [t2; c2] →
  _create_bar_chart W cat_var num_var cat_label num_label
    = run_plan W (bar_plan t1 c1 t2 c2 num_var cat_label num_label).
Proof.
  intros H1 H2. rewrite (bar_chart_unfold W _ _ _ _ _ _ _ _ H1 H2).
  unfold run_plan. apply bind_ext. intros df.
  cbn [bar_plan grouped_plan p_sql p_guard p_prep p_call p_post p_title].
  by rewrite ret_bind.
Qed.

Lemma line_chart_plan time_var num_var time_label num_label t1 c1 t2 c2 :
  str_split "." time_var = [t1; c1] → str_split "." num_var = [t2; c2] →
  _create_line_chart W time_var num_var time_label num_label
    = run_plan W (line_plan W t1 c1 t2 c2 num_var time_label num_label).
Proof. intros H1 H2. by rewrite (line_chart_unfold W _ _ _ _ _ _ _ _ H1 H2). Qed.

Lemma grouped_bar_chart_plan var1 var2 num_var label1 label2 num_label
    t1 c1 t2 c2 t3 c3 :
  str_split "." var1 = [t1; c1] → str_split "." var2 = [t2; c2] →
  str_split "." num_var = [t3; c3] →
  _create_grouped_bar_chart W var1 var2 (Some num_var) label1 label2 num_label
    = run_plan W (grouped_plan t1 c1 t2 c2 t3 c3 label1 label2 num_label).
Proof.
  intros H1 H2 H3. rewrite (grouped_bar_chart_unfold W _ _ _ _ _ _ _ _ _ _ _ _ H1 H2 H3).
  unfold run_plan. apply bind_ext. intros df.
  cbn [bar_plan grouped_plan p_sql p_guard p_prep p_call p_post p_title].
  by rewrite ret_bind.
Qed.

Lemma bubble_chart_plan var1 var2 label1 label2 t1 c1 t2 c2 :
  str_split "." var1 = [t1; c1] → str_split "." var2 = [t2; c2] →
  _create_bubble_chart W var1 var2 label1 label2
    = run_plan W (bubble_plan t1 c1 t2 c2 label1 label2).
Proof.
  intros H1 H2. rewrite (bubble_chart_unfold W _ _ _ _ _ _ _ _ H1 H2).
  unfold run_plan. apply bind_ext. intros df.
  cbn [bubble_plan p_sql p_guard p_prep p_call p_post p_title].
  destruct (df_empty df); [done|]. by rewrite ret_bind.
Qed.

Lemma multi_line_chart_plan time_var cat_var num_var time_label cat_label num_label
    t1 c1 t2 c2 t3 c3 :
  str_split "." time_var = [t1; c1] → str_split "." cat_var = [t2; c2] →
  str_split "." num_var = [t3; c3] →
  _create_multi_line_chart W time_var cat_var (Some num_var)
      time_label cat_label num_label
    = run_plan W (multi_line_plan W t1 c1 t2 c2 t3 c3 time_label cat_label num_label).
Proof.
  intros H1 H2 H3.
  by rewrite (multi_line_chart_unfold W _ _ _ _ _ _ _ _ _ _ _ _ H1 H2 H3).
Qed.

(** What running a plan does, given that its preparation is quiet. *)
Lemma run_plan_eq (p : plan) :
  (∀ df, ∃ t df', p_prep p df = (t, inr df') ∧ queries t = [] ∧ plots t = []) →
  (∃ e, read_sql W (p_sql p) = inl e
        ∧ run_plan W p = ([Log INFO ("Executing SQL: " +:+ p_sql p); ExecSQL (p_sql p)], inl e))
  ∨ (∃ df0 r, read_sql W (p_sql p) = inr df0 ∧ p_guard p df0 = Some r
        ∧ run_plan W p
          = ([Log INFO ("Executing SQL: " +:+ p_sql p); ExecSQL (p_sql p);
              Log INFO ("Data fetched: " +:+ pretty (df_len df0) +:+ " rows")], inr r))
  ∨ (∃ df0 t df, read_sql W (p_sql p) = inr df0 ∧ p_guard p df0 = None
        ∧ p_prep p df0 = (t, inr df) ∧ queries t = [] ∧ plots t = []
        ∧ run_plan W p
          = ([Log INFO ("Executing SQL: " +:+ p_sql p); ExecSQL (p_sql p);
              Log INFO ("Data fetched: " +:+ pretty (df_len df0) +:+ " rows")]
               ++ t ++ [Plot (px_fn (p_call p df))],
             match px_fault W (p_call p df) with
             | Some e => inl e
             | None => inr (Some (p_post p (new_figure (p_call p df))), p_title p)
             end)).
Proof.
  intros Hprep. unfold run_plan.
  destruct (read_sql W (p_sql p)) as [e|df0] eqn:Hsql.
  { left. exists e. split; [done|]. by rewrite (fetch_bind_fail W _ _ _ Hsql). }
  right. rewrite (fetch_bind_ok W _ _ _ Hsql).
  destruct (p_guard p df0) as [r|] eqn:Hg.
  { left. by exists df0, r. }
  right. destruct (Hprep df0) as (t & df & Hp & Hq & Hpl).
  exists df0, t, df. split_and!; try done.
  rewrite Hp. cbn [mbind M_bind]. rewrite px_then_ret. cbn [fst snd app].
  reflexivity.
Qed.

End Plans.

Lemma lenient_convert_quiet (W : World) (df : DataFrame) (c1 : string) :
  ∃ t df', lenient_convert W df c1 = (t, inr df') ∧ queries t = [] ∧ plots t = [].
Proof.
  rewrite lenient_convert_eq. destruct (convert_time_column W df c1).2; by eexists _, _.
Qed.

(** The plans of the dispatcher are good ones. *)
Lemma bar_plan_good t1 c1 t2 c2 nv cl nl :
  good_plan cl nl "범주형" "수치형" (bar_plan t1 c1 t2 c2 nv cl nl)
  ∧ good_plan nl cl "수치형" "범주형" (bar_plan t1 c1 t2 c2 nv cl nl).
Proof.
  split; (split_and!;
    [ intros df; by exists [], df
    | intros df; right; right; split; [|done]; (by left) || (by right)
    | intros df; cbn; split_and!; try done; find_elem
    | done
    | unfold bar_plan, p_title, bar_title; find_sub
    | unfold bar_plan, p_title, bar_title; find_sub ]).
Qed.

Lemma line_plan_good W t1 c1 t2 c2 nv tl nl :
  good_plan tl nl "시간형" "수치형" (line_plan W t1 c1 t2 c2 nv tl nl)
  ∧ good_plan nl tl "수치형" "시간형" (line_plan W t1 c1 t2 c2 nv tl nl).
Proof.
  split; (split_and!;
    [ intros df; apply lenient_convert_quiet
    | intros df; right; right; split; [|done]; (by left) || (by right)
    | intros df; cbn; split_and!; try done; find_elem
    | done
    | unfold line_plan, p_title, line_title; find_sub
    | unfold line_plan, p_title, line_title; find_sub ]).
Qed.

Lemma grouped_plan_good t1 c1 t2 c2 t3 c3 l1 l2 nl :
  good_plan l1 l2 "범주형" "범주형" (grouped_plan t1 c1 t2 c2 t3 c3 l1 l2 nl).
Proof.
  split_and!;
    [ intros df; by exists [], df
    | intros df; right; right; split; [|done]; by left
    | intros df; cbn; split_and!; try done; find_elem
    | done
    | unfold grouped_plan, p_title, grouped_title; find_sub
    | unfold grouped_plan, p_title, grouped_title; find_sub ].
Qed.

Lemma bubble_plan_good t1 c1 t2 c2 l1 l2 :
  good_plan l1 l2 "수치형" "수치형" (bubble_plan t1 c1 t2 c2 l1 l2).
Proof.
  split_and!;
    [ intros df; by exists [], df
    | intros df; cbn; destruct (df_empty df); [right; left; done | left; done]
    | intros df; cbn; split_and!; try done; find_elem
    | done
    | unfold bubble_plan, p_title, bubble_title; find_sub
    | unfold bubble_plan, p_title, bubble_title; find_sub ].
Qed.

Lemma multi_line_plan_good W t1 c1 t2 c2 t3 c3 tl cl nl :
  good_plan tl cl "시간형" "범주형" (multi_line_plan W t1 c1 t2 c2 t3 c3 tl cl nl)
  ∧ good_plan cl tl "범주형" "시간형" (multi_line_plan W t1 c1 t2 c2 t3 c3 tl cl nl).
Proof.
  split; (split_and!;
    [ intros df; apply lenient_convert_quiet
    | intros df; right; right; split; [|done]; (by left) || (by right)
    | intros df; cbn; split_and!; try done; find_elem
    | done
    | unfold multi_line_plan, p_title, multi_line_title; find_sub
    | unfold multi_line_plan, p_title, multi_line_title; find_sub ]).
Qed.

(** ** The dispatcher, case by case *)

(** For two identifiers [Table.Column] the body of the [try] block is a
    rejection or the run of a good plan. *)
Lemma dispatch_cases (W : World) var1 var2 label1 label2 type1 type2 t1 c1 t2 c2 :
  str_split "." var1 = [t1; c1] → str_split "." var2 = [t2; c2] →
  (in_dispatch_table type1 type2 = false
   ∧ dispatch W var1 var2 label1 label2 type1 type2 = mret (None, no_chart_message))
  ∨ (type1 = "수치형" ∧ type2 = "수치형" ∧ "사고건수" ∈ [label1; label2]
     ∧ dispatch W var1 var2 label1 label2 type1 type2
       = mret (None, unsupported_count_message))
  ∨ (in_dispatch_table type1 type2 = true
     ∧ ∃ p, dispatch W var1 var2 label1 label2 type1 type2 = run_plan W p
            ∧ good_plan label1 label2 type1 type2 p).
Proof.
  intros H1 H2.
  assert (str_split "." "ACCIDENT.(사고건수)" = ["ACCIDENT"; "(사고건수)"]) as H3
    by (by vm_compute).
  unfold dispatch. rewrite accident_count_resolves.
  destruct (String.eqb type1 "범주형" && String.eqb type2 "수치형") eqn:E1.
  { apply andb_prop in E1 as [->%String.eqb_eq ->%String.eqb_eq].
    right; right. split; [by vm_compute|]. eexists. split.
    - apply (bar_chart_plan W _ _ _ _ _ _ _ _ H1 H2).
    - apply bar_plan_good. }
  destruct (String.eqb type1 "수치형" && String.eqb type2 "범주형") eqn:E2.
  { apply andb_prop in E2 as [->%String.eqb_eq ->%String.eqb_eq].
    right; right. split; [by vm_compute|]. eexists. split.
    - apply (bar_chart_plan W _ _ _ _ _ _ _ _ H2 H1).
    - apply bar_plan_good. }
  destruct (String.eqb type1 "시간형" && String.eqb type2 "수치형") eqn:E3.
  { apply andb_prop in E3 as [->%String.eqb_eq ->%String.eqb_eq].
    right; right. split; [by vm_compute|]. eexists. split.
    - apply (line_chart_plan W _ _ _ _ _ _ _ _ H1 H2).
    - apply line_plan_good. }
  destruct (String.eqb type1 "수치형" && String.eqb type2 "시간형") eqn:E4.
  { apply andb_prop in E4 as [->%String.eqb_eq ->%String.eqb_eq].
    right; right. split; [by vm_compute|]. eexists. split.
    - apply (line_chart_plan W _ _ _ _ _ _ _ _ H2 H1).
    - apply line_plan_good. }
  destruct (String.eqb type1 "범주형" && String.eqb type2 "범주형") eqn:E5.
  { apply andb_prop in E5 as [->%String.eqb_eq ->%String.eqb_eq].
    right; right. split; [by vm_compute|]. eexists. split.
    - apply (grouped_bar_chart_plan W _ _ _ _ _ _ _ _ _ _ _ _ H1 H2 H3).
    - apply grouped_plan_good. }
  destruct (String.eqb type1 "수치형" && String.eqb type2 "수치형") eqn:E6.
  { apply andb_prop in E6 as [->%String.eqb_eq ->%String.eqb_eq].
    destruct (bool_decide ("사고건수" ∈ [label1; label2])) eqn:Hin.
    - right; left. by apply bool_decide_eq_true in Hin.
    - right; right. split; [by vm_compute|]. eexists. split.
      + apply (bubble_chart_plan W _ _ _ _ _ _ _ _ H1 H2).
      + apply bubble_plan_good. }
  destruct (String.eqb type1 "시간형" && String.eqb type2 "범주형") eqn:E7.
  { apply andb_prop in E7 as [->%String.eqb_eq ->%String.eqb_eq].
    right; right. split; [by vm_compute|]. eexists. split.
    - apply (multi_line_chart_plan W _ _ _ _ _ _ _ _ _ _ _ _ H1 H2 H3).
    - apply multi_line_plan_good. }
  destruct (String.eqb type1 "범주형" && String.eqb type2 "시간형") eqn:E8.
  { apply andb_prop in E8 as [->%String.eqb_eq ->%String.eqb_eq].
    right; right. split; [by vm_compute|]. eexists. split.
    - apply (multi_line_chart_plan W _ _ _ _ _ _ _ _ _ _ _ _ H2 H1 H3).
    - apply multi_line_plan_good. }
  left. split; [|done].
  unfold in_dispatch_table. apply bool_decide_eq_false. intros Hin.
  repeat (apply elem_of_cons in Hin as [[= -> ->]|Hin]; [discriminate|]).
  by apply elem_of_nil in Hin.
Qed.

(** The same for two labels that resolve. *)
Lemma generate_cases (W : World) label1 label2 var1 var2 :
  _get_internal_name label1 = Some var1 → _get_internal_name label2 = Some var2 →
  let type1 := _get_column_type var1 in
  let type2 := _get_column_type var2 in
  generate_visualization W label1 label2
    = (Log INFO (start_message label1 label2 type1 type2)
         :: (try_except (dispatch W var1 var2 label1 label2 type1 type2) on_error).1,
       (try_except (dispatch W var1 var2 label1 label2 type1 type2) on_error).2)
  ∧ ((in_dispatch_table type1 type2 = false
      ∧ dispatch W var1 var2 label1 label2 type1 type2 = mret (None, no_chart_message))
     ∨ (type1 = "수치형" ∧ type2 = "수치형" ∧ "사고건수" ∈ [label1; label2]
        ∧ dispatch W var1 var2 label1 label2 type1 type2
          = mret (None, unsupported_count_message))
     ∨ (in_dispatch_table type1 type2 = true
        ∧ ∃ p, dispatch W var1 var2 label1 label2 type1 type2 = run_plan W p
               ∧ good_plan label1 label2 type1 type2 p)).
Proof.
  intros R1 R2 type1 type2.
  destruct (resolved_split _ _ R1) as (t1 & c1 & H1).
  destruct (resolved_split _ _ R2) as (t2 & c2 & H2).
  split.
  - by rewrite (generate_unfold W _ _ _ _ R1 R2), log_then.
  - apply (dispatch_cases W _ _ _ _ _ _ _ _ _ _ H1 H2).
Qed.

(** ** The outcomes of a call *)

Lemma try_except_on_error_ok (t : list event) (r : ChartResult) :
  try_except (t, inr r) on_error = (t, inr r).
Proof. done. Qed.

Lemma try_except_on_error_fail (t : list event) (e : exn) :
  try_except ((t, inl e) : M ChartResult) on_error
    = (t ++ [error_line e], inr (None, error_prefix +:+ exn_str e)).
Proof. done. Qed.

Lemma generate_outcome (W : World) label1 label2 var1 var2 :
  _get_internal_name label1 = Some var1 → _get_internal_name label2 = Some var2 →
  ∃ t r,
    generate_visualization W label1 label2
      = (Log INFO (start_message label1 label2
                     (_get_column_type var1) (_get_column_type var2)) :: t, inr r)
    ∧ outcome W label1 label2 (_get_column_type var1) (_get_column_type var2) t r.
Proof.
  intros R1 R2.
  destruct (generate_cases W _ _ _ _ R1 R2) as [-> Hd]. cbv zeta in Hd.
  destruct Hd as [[Hout ->]|[(T1 & T2 & Hin & ->)|(Htab & p & -> & Hp)]].
  - eexists _, _. split; [reflexivity|]. by constructor.
  - eexists _, _. split; [reflexivity|]. by constructor.
  - pose proof Hp as (Hprep & Hguard & _).
    destruct (run_plan_eq W p Hprep)
      as [(e & Hsql & ->)|[(df0 & r & Hsql & Hg & ->)|
          (df0 & t & df & Hsql & Hg & Hpr & Hq & Hpl & ->)]].
    + rewrite try_except_on_error_fail. eexists _, _. split; [reflexivity|].
      by apply out_store_fault.
    + rewrite try_except_on_error_ok. eexists _, _. split; [reflexivity|].
      destruct (Hguard df0) as [[_ Hn]|[(T1 & T2 & Hemp & Hs)|[_ Hn]]]; try congruence.
      rewrite Hs in Hg. injection Hg as <-.
      by apply (out_no_data W _ _ _ _ p df0).
    + destruct (px_fault W (p_call p df)) as [e|] eqn:Hpx.
      * rewrite try_except_on_error_fail. eexists _, _. split.
        { rewrite <- !app_assoc. reflexivity. }
        by apply (out_plot_fault W _ _ _ _ p df0 t df e).
      * rewrite try_except_on_error_ok. eexists _, _. split; [reflexivity|].
        by apply (out_chart W _ _ _ _ p df0 t df).
Qed.

(** Without both labels resolved nothing happens at all. *)
Lemma generate_unresolved (W : World) label1 label2 :
  _get_internal_name label1 = None ∨ _get_internal_name label2 = None →
  generate_visualization W label1 label2 = ([], inr (None, not_found_message)).
Proof.
  unfold generate_visualization. intros [H|H]; rewrite H; cbn [truthy]; [done|].
  by destruct (truthy _).
Qed.

(** ** Swapping the two labels *)

(** With the roles exchanged the grouped-bar and the bubble routine read
    the same tables and group by the same two columns. *)
Lemma joins_for_swap (t1 t2 : string) (rest : list string) :
  joins_for (t1 :: t2 :: rest) = joins_for (t2 :: t1 :: rest).
Proof.
  unfold joins_for.
  rewrite (bool_decide_ext ("DRIVER" ∈ t1 :: t2 :: rest) ("DRIVER" ∈ t2 :: t1 :: rest)),
    (bool_decide_ext ("REGION" ∈ t1 :: t2 :: rest) ("REGION" ∈ t2 :: t1 :: rest));
    [done | |]; rewrite !elem_of_cons; tauto.
Qed.

(** The rows of the dispatch table. *)
Lemma dispatch_cat_num W v1 v2 l1 l2 :
  dispatch W v1 v2 l1 l2 "범주형" "수치형" = _create_bar_chart W v1 v2 l1 l2.
Proof. reflexivity. Qed.

Lemma dispatch_num_cat W v1 v2 l1 l2 :
  dispatch W v1 v2 l1 l2 "수치형" "범주형" = _create_bar_chart W v2 v1 l2 l1.
Proof. reflexivity. Qed.

Lemma dispatch_time_num W v1 v2 l1 l2 :
  dispatch W v1 v2 l1 l2 "시간형" "수치형" = _create_line_chart W v1 v2 l1 l2.
Proof. reflexivity. Qed.

Lemma dispatch_num_time W v1 v2 l1 l2 :
  dispatch W v1 v2 l1 l2 "수치형" "시간형" = _create_line_chart W v2 v1 l2 l1.
Proof. reflexivity. Qed.

Lemma dispatch_cat_cat W v1 v2 l1 l2 :
  dispatch W v1 v2 l1 l2 "범주형" "범주형"
    = _create_grouped_bar_chart W v1 v2 (Some "ACCIDENT.(사고건수)") l1 l2 "사고건수".
Proof. unfold dispatch. rewrite accident_count_resolves. reflexivity. Qed.

Lemma dispatch_num_num W v1 v2 l1 l2 :
  dispatch W v1 v2 l1 l2 "수치형" "수치형"
    = if bool_decide ("사고건수" ∈ [l1; l2])
      then mret (None, unsupported_count_message)
      else _create_bubble_chart W v1 v2 l1 l2.
Proof. reflexivity. Qed.

Lemma dispatch_time_cat W v1 v2 l1 l2 :
  dispatch W v1 v2 l1 l2 "시간형" "범주형"
    = _create_multi_line_chart W v1 v2 (Some "ACCIDENT.(사고건수)") l1 l2 "사고건수".
Proof. unfold dispatch. rewrite accident_count_resolves. reflexivity. Qed.

Lemma dispatch_cat_time W v1 v2 l1 l2 :
  dispatch W v1 v2 l1 l2 "범주형" "시간형"
    = _create_multi_line_chart W v2 v1 (Some "ACCIDENT.(사고건수)") l2 l1 "사고건수".
Proof. unfold dispatch. rewrite accident_count_resolves. reflexivity. Qed.

(** What [generate_visualization] returns and sends is what the guarded
    body of its [try] block returns and sends. *)
Lemma generate_guarded (W : World) label1 label2 var1 var2 :
  _get_internal_name label1 = Some var1 → _get_internal_name label2 = Some var2 →
  (generate_visualization W label1 label2).2
    = (try_except (dispatch W var1 var2 label1 label2
                     (_get_column_type var1) (_get_column_type var2)) on_error).2
  ∧ queries (generate_visualization W label1 label2).1
    = queries (try_except (dispatch W var1 var2 label1 label2
                             (_get_column_type var1) (_get_column_type var2)) on_error).1
  ∧ plots (generate_visualization W label1 label2).1
    = plots (try_except (dispatch W var1 var2 label1 label2
                           (_get_column_type var1) (_get_column_type var2)) on_error).1.
Proof.
  intros R1 R2. by rewrite (generate_unfold W _ _ _ _ R1 R2), log_then.
Qed.

(** A guarded plan sends its query and no other. *)
Lemma guarded_plan_queries (W : World) (p : plan) :
  (∀ df, ∃ t df', p_prep p df = (t, inr df') ∧ queries t = [] ∧ plots t = []) →
  queries (try_except (run_plan W p) on_error).1 = [p_sql p].
Proof.
  intros Hprep.
  destruct (run_plan_eq W p Hprep)
    as [(e & Hsql & ->)|[(df0 & r & Hsql & Hg & ->)|
        (df0 & t & df & Hsql & Hg & Hpr & Hq & Hpl & ->)]]; [done|done|].
  destruct (px_fault W (p_call p df));
    rewrite ?try_except_on_error_fail, ?try_except_on_error_ok; cbn [fst];
    rewrite ?queries_app, Hq; done.
Qed.

(** The chart a guarded plan returns, when its guard returns none, is the
    plotly figure over the prepared answer of the store. *)
Lemma guarded_plan_chart (W : World) (p : plan) fig title :
  (∀ df, ∃ t df', p_prep p df = (t, inr df') ∧ queries t = [] ∧ plots t = []) →
  (∀ df r, p_guard p df = Some r → r.1 = None) →
  (try_except (run_plan W p) on_error).2 = inr (Some fig, title) →
  ∃ df0 t df, read_sql W (p_sql p) = inr df0 ∧ p_guard p df0 = None
              ∧ p_prep p df0 = (t, inr df)
              ∧ px_fault W (p_call p df) = None
              ∧ fig = p_post p (new_figure (p_call p df)) ∧ title = p_title p.
Proof.
  intros Hprep Hguard.
  destruct (run_plan_eq W p Hprep)
    as [(e & Hsql & ->)|[(df0 & r & Hsql & Hg & ->)|
        (df0 & t & df & Hsql & Hg & Hpr & Hq & Hpl & ->)]].
  - rewrite try_except_on_error_fail. cbn [snd]. intros [=].
  - rewrite try_except_on_error_ok. cbn [snd]. intros [= ->].
    by specialize (Hguard _ _ Hg).
  - destruct (px_fault W (p_call p df)) as [e|] eqn:Hpx.
    + rewrite try_except_on_error_fail. cbn [snd]. intros [=].
    + rewrite try_except_on_error_ok. cbn [snd]. intros [= <- <-].
      by exists df0, t, df.
Qed.

Lemma symmetric_in_table (type1 type2 : string) :
  symmetric_pair type1 type2 = true →
  in_dispatch_table type1 type2 = true ∧ (type1 ≠ "수치형" ∨ type2 ≠ "수치형").
Proof.
  unfold symmetric_pair. intros Hsym. apply bool_decide_eq_true in Hsym.
  repeat (apply elem_of_cons in Hsym as [[= -> ->]|Hsym];
          [split; [by vm_compute | (by left) || (by right)]|]).
  by apply elem_of_nil in Hsym.
Qed.

Lemma symmetric_dispatch (W : World) var1 var2 label1 label2 type1 type2 :
  symmetric_pair type1 type2 = true →
  dispatch W var1 var2 label1 label2 type1 type2
    = dispatch W var2 var1 label2 label1 type2 type1.
Proof.
  unfold symmetric_pair. intros Hsym. apply bool_decide_eq_true in Hsym.
  repeat (apply elem_of_cons in Hsym as [[= -> ->]|Hsym]; [reflexivity|]).
  by apply elem_of_nil in Hsym.
Qed.

(** C8. For two labels that resolve, swapping them keeps the outcome
    class.  A categorical with a numeric field is served by the bar
    routine, a temporal with a numeric field by the line routine and a
    temporal with a categorical field by the multi-line routine: in either
    order of the labels the dispatcher calls that one routine with the same
    arguments in its canonical order.  Hence on the six mixed type pairs
    both orders send one and the same query, make the same plotly call and
    return the same result.  Two categorical fields run the grouped-bar
    routine in both orders, and two numeric fields are rejected alike when
    one label is the accident count and run the bubble routine in both
    orders otherwise: the two queries select and group by the same two
    columns in exchanged order over the same joins with the same aggregate,
    and a chart returned in either order is of the same plotly kind, drawn
    over the store's answer to the query of that order, with the two
    columns exchanged between x and colour (grouped bar) or x and y
    (bubble). *)
Theorem C8_generate_commutes (W : World) (label1 label2 var1 var2 : string) :
  _get_internal_name label1 = Some var1 →
  _get_internal_name label2 = Some var2 →
  (_get_column_type var1 = "범주형" → _get_column_type var2 = "수치형" →
     dispatch W var1 var2 label1 label2 (_get_column_type var1) (_get_column_type var2)
       = _create_bar_chart W var1 var2 label1 label2
     ∧ dispatch W var2 var1 label2 label1 (_get_column_type var2) (_get_column_type var1)
       = _create_bar_chart W var1 var2 label1 label2)
  ∧ (_get_column_type var1 = "시간형" → _get_column_type var2 = "수치형" →
     dispatch W var1 var2 label1 label2 (_get_column_type var1) (_get_column_type var2)
       = _create_line_chart W var1 var2 label1 label2
     ∧ dispatch W var2 var1 label2 label1 (_get_column_type var2) (_get_column_type var1)
       = _create_line_chart W var1 var2 label1 label2)
  ∧ (_get_column_type var1 = "시간형" → _get_column_type var2 = "범주형" →
     dispatch W var1 var2 label1 label2 (_get_column_type var1) (_get_column_type var2)
       = _create_multi_line_chart W var1 var2 (Some "ACCIDENT.(사고건수)")
           label1 label2 "사고건수"
     ∧ dispatch W var2 var1 label2 label1 (_get_column_type var2) (_get_column_type var1)
       = _create_multi_line_chart W var1 var2 (Some "ACCIDENT.(사고건수)")
           label1 label2 "사고건수")
  ∧ (symmetric_pair (_get_column_type var1) (_get_column_type var2) = true →
     (generate_visualization W label1 label2).2
       = (generate_visualization W label2 label1).2
     ∧ (∃ q, queries (generate_visualization W label1 label2).1 = [q]
             ∧ queries (generate_visualization W label2 label1).1 = [q])
     ∧ plots (generate_visualization W label1 label2).1
       = plots (generate_visualization W label2 label1).1)
  ∧ (_get_column_type var1 = "범주형" → _get_column_type var2 = "범주형" →
     ∀ t1 c1 t2 c2,
       str_split "." var1 = [t1; c1] → str_split "." var2 = [t2; c2] →
       dispatch W var1 var2 label1 label2 (_get_column_type var1) (_get_column_type var2)
         = _create_grouped_bar_chart W var1 var2 (Some "ACCIDENT.(사고건수)")
             label1 label2 "사고건수"
       ∧ dispatch W var2 var1 label2 label1 (_get_column_type var2) (_get_column_type var1)
         = _create_grouped_bar_chart W var2 var1 (Some "ACCIDENT.(사고건수)")
             label2 label1 "사고건수"
       ∧ queries (generate_visualization W label1 label2).1
         = [grouped_sql t1 c1 t2 c2 "ACCIDENT" "(사고건수)"]
       ∧ queries (generate_visualization W label2 label1).1
         = [grouped_sql t2 c2 t1 c1 "ACCIDENT" "(사고건수)"]
       ∧ joins_for [t1; t2; "ACCIDENT"] = joins_for [t2; t1; "ACCIDENT"]
       ∧ (∀ fig title,
            (generate_visualization W label1 label2).2 = inr (Some fig, title) →
            px_fn (fig_call fig) = PxBar
            ∧ px_x (fig_call fig) = c1 ∧ px_color (fig_call fig) = Some c2
            ∧ px_y (fig_call fig) = "Value"
            ∧ read_sql W (grouped_sql t1 c1 t2 c2 "ACCIDENT" "(사고건수)")
              = inr (px_data (fig_call fig)))
       ∧ (∀ fig title,
            (generate_visualization W label2 label1).2 = inr (Some fig, title) →
            px_fn (fig_call fig) = PxBar
            ∧ px_x (fig_call fig) = c2 ∧ px_color (fig_call fig) = Some c1
            ∧ px_y (fig_call fig) = "Value"
            ∧ read_sql W (grouped_sql t2 c2 t1 c1 "ACCIDENT" "(사고건수)")
              = inr (px_data (fig_call fig))))
  ∧ (_get_column_type var1 = "수치형" → _get_column_type var2 = "수치형" →
     ("사고건수" ∈ [label1; label2] →
        generate_visualization W label1 label2
          = ([Log INFO (start_message label1 label2 "수치형" "수치형")],
             inr (None, unsupported_count_message))
        ∧ generate_visualization W label2 label1
          = ([Log INFO (start_message label2 label1 "수치형" "수치형")],
             inr (None, unsupported_count_message)))
     ∧ ("사고건수" ∉ [label1; label2] →
        ∀ t1 c1 t2 c2,
          str_split "." var1 = [t1; c1] → str_split "." var2 = [t2; c2] →
          dispatch W var1 var2 label1 label2
              (_get_column_type var1) (_get_column_type var2)
            = _create_bubble_chart W var1 var2 label1 label2
          ∧ dispatch W var2 var1 label2 label1
                (_get_column_type var2) (_get_column_type var1)
            = _create_bubble_chart W var2 var1 label2 label1
          ∧ queries (generate_visualization W label1 label2).1 = [bubble_sql t1 c1 t2 c2]
          ∧ queries (generate_visualization W label2 label1).1 = [bubble_sql t2 c2 t1 c1]
          ∧ joins_for [t1; t2] = joins_for [t2; t1]
          ∧ (∀ fig title,
               (generate_visualization W label1 label2).2 = inr (Some fig, title) →
               px_fn (fig_call fig) = PxScatter
               ∧ px_x (fig_call fig) = c1 ∧ px_y (fig_call fig) = c2
               ∧ px_size (fig_call fig) = Some "BubbleSize"
               ∧ px_color (fig_call fig) = Some "BubbleSize"
               ∧ read_sql W (bubble_sql t1 c1 t2 c2) = inr (px_data (fig_call fig)))
          ∧ (∀ fig title,
               (generate_visualization W label2 label1).2 = inr (Some fig, title) →
               px_fn (fig_call fig) = PxScatter
               ∧ px_x (fig_call fig) = c2 ∧ px_y (fig_call fig) = c1
               ∧ px_size (fig_call fig) = Some "BubbleSize"
               ∧ px_color (fig_call fig) = Some "BubbleSize"
               ∧ read_sql W (bubble_sql t2 c2 t1 c1) = inr (px_data (fig_call fig))))).
Proof.
  intros R1 R2.
  assert (str_split "." "ACCIDENT.(사고건수)" = ["ACCIDENT"; "(사고건수)"]) as H3
    by (by vm_compute).
  destruct (generate_guarded W _ _ _ _ R1 R2) as (G12 & Q12 & P12).
  destruct (generate_guarded W _ _ _ _ R2 R1) as (G21 & Q21 & P21).
  split_and!.
  - intros -> ->. rewrite dispatch_cat_num, dispatch_num_cat. split; reflexivity.
  - intros -> ->. rewrite dispatch_time_num, dispatch_num_time. split; reflexivity.
  - intros -> ->. rewrite dispatch_time_cat, dispatch_cat_time. split; reflexivity.
  - intros Hsym. rewrite G12, G21, Q12, Q21, P12, P21.
    rewrite <- (symmetric_dispatch W var1 var2 label1 label2 _ _ Hsym).
    clear G12 G21 Q12 Q21 P12 P21.
    split_and!; [reflexivity| |reflexivity].
    destruct (symmetric_in_table _ _ Hsym) as [Htab Hnn].
    destruct (resolved_split _ _ R1) as (t1 & c1 & H1).
    destruct (resolved_split _ _ R2) as (t2 & c2 & H2).
    destruct (dispatch_cases W var1 var2 label1 label2
                (_get_column_type var1) (_get_column_type var2) _ _ _ _ H1 H2)
      as [[Hout _]|[(T1 & T2 & _)|(_ & p & -> & Hp)]].
    + congruence.
    + destruct Hnn as [Hn|Hn]; [destruct (Hn T1)|destruct (Hn T2)].
    + exists (p_sql p). rewrite (guarded_plan_queries W p (proj1 Hp)).
      split; reflexivity.
  - intros T1 T2 t1 c1 t2 c2 H1 H2.
    rewrite G12, G21, Q12, Q21, T1, T2, !dispatch_cat_cat.
    rewrite (grouped_bar_chart_plan W _ _ _ _ _ _ _ _ _ _ _ _ H1 H2 H3),
      (grouped_bar_chart_plan W _ _ _ _ _ _ _ _ _ _ _ _ H2 H1 H3).
    rewrite !guarded_plan_queries by apply grouped_plan_good.
    clear G12 G21 Q12 Q21 P12 P21.
    split_and!; [reflexivity..| | |].
    + apply joins_for_swap.
    + intros fig title Hres.
      apply guarded_plan_chart in Hres
        as (df0 & t & df & Hsql & _ & Hpr & _ & -> & _);
        [|apply grouped_plan_good|intros ? ? [=]].
      injection Hpr as <- <-. split_and!; [reflexivity..|exact Hsql].
    + intros fig title Hres.
      apply guarded_plan_chart in Hres
        as (df0 & t & df & Hsql & _ & Hpr & _ & -> & _);
        [|apply grouped_plan_good|intros ? ? [=]].
      injection Hpr as <- <-. split_and!; [reflexivity..|exact Hsql].
  - intros T1 T2. split.
    + intros Hin.
      rewrite (generate_unfold W _ _ _ _ R1 R2), (generate_unfold W _ _ _ _ R2 R1).
      rewrite !log_then, T1, T2, !dispatch_num_num.
      rewrite (bool_decide_ext ("사고건수" ∈ [label2; label1]) ("사고건수" ∈ [label1; label2])).
      2:{ rewrite !elem_of_cons, !elem_of_nil. tauto. }
      rewrite (bool_decide_eq_true_2 _ Hin). split; reflexivity.
    + intros Hnin t1 c1 t2 c2 H1 H2.
      rewrite G12, G21, Q12, Q21, T1, T2, !dispatch_num_num.
      rewrite (bool_decide_ext ("사고건수" ∈ [label2; label1]) ("사고건수" ∈ [label1; label2])).
      2:{ rewrite !elem_of_cons, !elem_of_nil. tauto. }
      rewrite (bool_decide_eq_false_2 _ Hnin).
      rewrite (bubble_chart_plan W _ _ _ _ _ _ _ _ H1 H2),
        (bubble_chart_plan W _ _ _ _ _ _ _ _ H2 H1).
      rewrite !guarded_plan_queries by apply bubble_plan_good.
      assert (∀ a b l1 l2 df r,
                p_guard (bubble_plan a c1 b c2 l1 l2) df = Some r → r.1 = None) as Hg1.
      { intros a b l1 l2 df r. cbn [bubble_plan p_guard].
        destruct (df_empty df); [by intros [= <-]|done]. }
      assert (∀ a b l1 l2 df r,
                p_guard (bubble_plan a c2 b c1 l1 l2) df = Some r → r.1 = None) as Hg2.
      { intros a b l1 l2 df r. cbn [bubble_plan p_guard].
        destruct (df_empty df); [by intros [= <-]|done]. }
      clear G12 G21 Q12 Q21 P12 P21.
      split_and!; [reflexivity..| | |].
      * apply joins_for_swap.
      * intros fig title Hres.
        apply guarded_plan_chart in Hres
          as (df0 & t & df & Hsql & _ & Hpr & _ & -> & _);
          [|apply bubble_plan_good|apply Hg1].
        injection Hpr as <- <-. split_and!; [reflexivity..|exact Hsql].
      * intros fig title Hres.
        apply guarded_plan_chart in Hres
          as (df0 & t & df & Hsql & _ & Hpr & _ & -> & _);
          [|apply bubble_plan_good|apply Hg2].
        injection Hpr as <- <-. split_and!; [reflexivity..|exact Hsql].
Qed.

Lemma C8_generate_commutes_witness :
  dispatch (world_of region_frame) "REGION.RegionName" "ACCIDENT.(사고건수)"
      "지역명 (시군구)" "사고건수"
      (_get_column_type "REGION.RegionName") (_get_column_type "ACCIDENT.(사고건수)")
    = _create_bar_chart (world_of region_frame)
        "REGION.RegionName" "ACCIDENT.(사고건수)" "지역명 (시군구)" "사고건수"
  ∧ dispatch (world_of region_frame) "ACCIDENT.(사고건수)" "REGION.RegionName"
        "사고건수" "지역명 (시군구)"
        (_get_column_type "ACCIDENT.(사고건수)") (_get_column_type "REGION.RegionName")
    = _create_bar_chart (world_of region_frame)
        "REGION.RegionName" "ACCIDENT.(사고건수)" "지역명 (시군구)" "사고건수".
Proof.
  apply (proj1 (C8_generate_commutes (world_of region_frame)
                  "지역명 (시군구)" "사고건수" "REGION.RegionName" "ACCIDENT.(사고건수)"
                  ltac:(vm_compute; reflexivity) ltac:(vm_compute; reflexivity)));
    vm_compute; reflexivity.
Defined.

(** Both orders of a region and the accident count draw the same bar chart
    over the same answer of the store. *)
Example region_count_both_orders :
  (generate_visualization (world_of region_frame) "지역명 (시군구)" "사고건수").2
    = inr (Some (update_xaxes_type "category"
                   (new_figure (bar_call region_frame "RegionName"
                                  "지역명 (시군구)" "사고건수"))),
           bar_title "지역명 (시군구)" "사고건수")
  ∧ (generate_visualization (world_of region_frame) "사고건수" "지역명 (시군구)").2
    = inr (Some (update_xaxes_type "category"
                   (new_figure (bar_call region_frame "RegionName"
                                  "지역명 (시군구)" "사고건수"))),
           bar_title "지역명 (시군구)" "사고건수").
Proof. split; vm_compute; reflexivity. Qed.

(** * Further properties of the code *)

(** ** Queries, plotly calls and labels *)

Lemma queries_fetched sql df0 : queries (fetched sql df0) = [sql].
Proof. done. Qed.

Lemma plots_fetched sql df0 : plots (fetched sql df0) = [].
Proof. done. Qed.

(** At most one query is sent and at most one plotly call is made per
    call of [generate_visualization], never a plotly call without a query
    before it; a returned chart has had exactly one of each, the plotly call
    being the one of its own kind. *)
Theorem one_query_per_call (W : World) (label1 label2 : string) :
  (length (queries (generate_visualization W label1 label2).1) ≤ 1)%nat
  ∧ (length (plots (generate_visualization W label1 label2).1)
      ≤ length (queries (generate_visualization W label1 label2).1))%nat
  ∧ (∀ fig title,
       (generate_visualization W label1 label2).2 = inr (Some fig, title) →
       length (queries (generate_visualization W label1 label2).1) = 1
       ∧ plots (generate_visualization W label1 label2).1 = [px_fn (fig_call fig)]).
Proof.
  destruct (_get_internal_name label1) as [v1|] eqn:R1.
  2:{ rewrite generate_unresolved by auto. cbn. split_and!; [lia|lia|done]. }
  destruct (_get_internal_name label2) as [v2|] eqn:R2.
  2:{ rewrite generate_unresolved by auto. cbn. split_and!; [lia|lia|done]. }
  destruct (generate_outcome W _ _ _ _ R1 R2) as (t & r & -> & Hout).
  cbn [fst snd]. change (queries (Log INFO ?m :: ?t)) with (queries t).
  change (plots (Log INFO ?m :: ?t)) with (plots t).
  destruct Hout as [ | | p e | p df0
                     | p df0 t df e Htab Hp Hsql Hg Hpr Hq Hpl Hpx
                     | p df0 t df Htab Hp Hsql Hg Hpr Hq Hpl Hpx ];
    rewrite ?queries_app, ?plots_app, ?queries_fetched, ?plots_fetched;
    try (cbn; split_and!; [lia|lia|done]).
  - rewrite Hq, Hpl. cbn. split_and!; [lia|lia|done].
  - rewrite Hq, Hpl. cbn. split_and!; [lia|lia|].
    intros fig title [= <- <-]. split; [done|].
    destruct Hp as (_ & _ & _ & Hpost & _). by rewrite (proj1 (Hpost _)).
Qed.

(** A chart returned for two labels is titled with the returned title, its
    title names both labels, and both labels are among the texts it puts on
    its axes and legend. *)
Theorem chart_carries_labels (W : World) (label1 label2 : string) fig title :
  (generate_visualization W label1 label2).2 = inr (Some fig, title) →
  px_title (fig_call fig) = title
  ∧ str_contains label1 title = true ∧ str_contains label2 title = true
  ∧ label1 ∈ (px_labels (fig_call fig)).*2
  ∧ label2 ∈ (px_labels (fig_call fig)).*2.
Proof.
  destruct (_get_internal_name label1) as [v1|] eqn:R1.
  2:{ by rewrite generate_unresolved by auto. }
  destruct (_get_internal_name label2) as [v2|] eqn:R2.
  2:{ by rewrite generate_unresolved by auto. }
  destruct (generate_outcome W _ _ _ _ R1 R2) as (t & r & -> & Hout).
  cbn [snd]. intros [= ->].
  inversion Hout as [ | | | | | p df0 t' df Htab Hp]; subst.
  destruct Hp as (_ & _ & Hcall & Hpost & Ht1 & Ht2).
  rewrite (proj1 (Hpost _)). cbn [fig_call new_figure].
  destruct (Hcall df) as (_ & -> & _ & Hl1 & Hl2). done.
Qed.

Lemma chart_carries_labels_witness :
  let fig := update_yaxes_dtick 1 (update_xaxes_dtick 1 (new_figure
               (bubble_call counts_frame "SevereInjuryCount" "MinorInjuryCount"
                  "중상자수" "경상자수"))) in
  px_title (fig_call fig) = bubble_title "중상자수" "경상자수"
  ∧ str_contains "중상자수" (bubble_title "중상자수" "경상자수") = true
  ∧ str_contains "경상자수" (bubble_title "중상자수" "경상자수") = true
  ∧ "중상자수" ∈ (px_labels (fig_call fig)).*2
  ∧ "경상자수" ∈ (px_labels (fig_call fig)).*2.
Proof.
  apply (chart_carries_labels (world_of counts_frame) "중상자수" "경상자수").
  vm_compute. reflexivity.
Defined.

Lemma one_query_per_call_witness :
  length (queries (generate_visualization (world_of counts_frame) "중상자수" "경상자수").1) = 1%nat
  ∧ plots (generate_visualization (world_of counts_frame) "중상자수" "경상자수").1
      = [px_fn (fig_call (update_yaxes_dtick 1 (update_xaxes_dtick 1 (new_figure
           (bubble_call counts_frame "SevereInjuryCount" "MinorInjuryCount"
              "중상자수" "경상자수")))))].
Proof.
  apply (proj2 (proj2 (one_query_per_call (world_of counts_frame) "중상자수" "경상자수"))
           _ (bubble_title "중상자수" "경상자수")).
  vm_compute. reflexivity.
Defined.

(** The chart returned for two resolved labels is the one the dispatch
    table assigns to their type pair: the pair is one of the table, the chart
    was built by the plotly function of that pair (scatter for two numeric
    fields, line when a field is temporal, bar otherwise), and its x axis is
    forced to [category] exactly for the bar-chart pairs. *)
Theorem chart_kind_follows_types (W : World) label1 label2 var1 var2 fig title :
  _get_internal_name label1 = Some var1 →
  _get_internal_name label2 = Some var2 →
  (generate_visualization W label1 label2).2 = inr (Some fig, title) →
  in_dispatch_table (_get_column_type var1) (_get_column_type var2) = true
  ∧ px_fn (fig_call fig) = kind_of (_get_column_type var1) (_get_column_type var2)
  ∧ xaxis_type fig
      = (if bar_pair (_get_column_type var1) (_get_column_type var2)
         then Some "category" else None).
Proof.
  intros R1 R2.
  destruct (generate_outcome W _ _ _ _ R1 R2) as (t & r & -> & Hout).
  cbn [snd]. intros [= ->].
  inversion Hout as [ | | | | | p df0 t' df Htab Hp]; subst.
  destruct Hp as (_ & _ & Hcall & Hpost & _).
  destruct (Hpost (new_figure (p_call p df))) as [-> ->]. cbn [fig_call new_figure xaxis_type].
  destruct (Hcall df) as (_ & _ & -> & _). done.
Qed.

Lemma chart_kind_follows_types_witness :
  let fig := update_xaxes_type "category" (new_figure
               (bar_call counts_frame "RegionName" "지역명 (시군구)" "사고건수")) in
  in_dispatch_table (_get_column_type "REGION.RegionName")
      (_get_column_type "ACCIDENT.(사고건수)") = true
  ∧ px_fn (fig_call fig)
      = kind_of (_get_column_type "REGION.RegionName")
          (_get_column_type "ACCIDENT.(사고건수)")
  ∧ xaxis_type fig
      = (if bar_pair (_get_column_type "REGION.RegionName")
              (_get_column_type "ACCIDENT.(사고건수)")
         then Some "category" else None).
Proof.
  apply (chart_kind_follows_types (world_of counts_frame)
           "지역명 (시군구)" "사고건수" _ _ _ (bar_title "지역명 (시군구)" "사고건수"));
    vm_compute; reflexivity.
Defined.

(** A failure [(None, msg)] of [generate_visualization] carries one of four
    fixed messages or the error prefix followed by the text of an exception
    that was logged as an error; the four fixed messages are never logged as
    errors. *)
Theorem failure_messages (W : World) (label1 label2 msg : string) :
  (generate_visualization W label1 label2).2 = inr (None, msg) →
  (msg ∈ [not_found_message; no_chart_message; unsupported_count_message;
          no_data_message]
   ∧ ∀ m, Log ERROR m ∉ (generate_visualization W label1 label2).1)
  ∨ (∃ e, msg = error_prefix +:+ exn_str e
          ∧ error_line e ∈ (generate_visualization W label1 label2).1).
Proof.
  destruct (_get_internal_name label1) as [v1|] eqn:R1.
  2:{ rewrite generate_unresolved by auto. cbn. intros [= <-]. left.
      split; [find_elem|]. intros m. apply not_elem_of_nil. }
  destruct (_get_internal_name label2) as [v2|] eqn:R2.
  2:{ rewrite generate_unresolved by auto. cbn. intros [= <-]. left.
      split; [find_elem|]. intros m. apply not_elem_of_nil. }
  destruct (generate_outcome W _ _ _ _ R1 R2) as (t & r & -> & Hout).
  cbn [fst snd]. intros [= ->].
  inversion Hout as [ | | p e | p df0
                    | p df0 t' df e Htab Hp Hsql Hg Hpr Hq Hpl Hpx | ]; subst.
  - left. split; [find_elem|]. intros m Hm.
    apply elem_of_cons in Hm as [[=]|Hm]. by apply elem_of_nil in Hm.
  - left. split; [find_elem|]. intros m Hm.
    apply elem_of_cons in Hm as [[=]|Hm]. by apply elem_of_nil in Hm.
  - right. exists e. split; [done|]. find_elem.
  - left. split; [find_elem|]. intros m Hm. unfold fetched in Hm.
    repeat (apply elem_of_cons in Hm as [[=]|Hm]). by apply elem_of_nil in Hm.
  - right. exists e. split; [done|].
    apply list_elem_of_further. rewrite !elem_of_app. right. right. find_elem.
Qed.

Lemma failure_messages_witness :
  (error_prefix +:+ "Can't connect to MySQL server"
     ∈ [not_found_message; no_chart_message; unsupported_count_message; no_data_message]
   ∧ ∀ m, Log ERROR m ∉ (generate_visualization store_down "주야" "사고유형").1)
  ∨ (∃ e, error_prefix +:+ "Can't connect to MySQL server" = error_prefix +:+ exn_str e
          ∧ error_line e ∈ (generate_visualization store_down "주야" "사고유형").1).
Proof.
  apply (failure_messages store_down "주야" "사고유형").
  vm_compute. reflexivity.
Defined.

(** ** The catalog and the selection list *)

Lemma elem_of_dict_keys (seen keys : list string) (k : string) :
  k ∈ dict_keys seen keys ↔ k ∈ keys ∧ k ∉ seen.
Proof.
  revert seen. induction keys as [|k' keys IH]; intros seen; cbn [dict_keys].
  - rewrite elem_of_nil. split; [done|]. by intros [? _].
  - case_bool_decide as Hseen.
    + rewrite IH, elem_of_cons. split; [intros [? ?]; auto|].
      intros [[->|?] ?]; [done|auto].
    + rewrite !elem_of_cons, IH, elem_of_cons.
      split.
      * intros [->|[? Hn]]; [auto|]. split; [auto|]. intros ?. apply Hn. auto.
      * intros [[->|?] Hn]; [auto|].
        destruct (decide (k = k')) as [->|Hne]; [auto|].
        right. split; [done|]. by intros [?|?].
Qed.

Lemma NoDup_dict_keys (seen keys : list string) : NoDup (dict_keys seen keys).
Proof.
  revert seen. induction keys as [|k' keys IH]; intros seen; cbn [dict_keys].
  - constructor.
  - case_bool_decide as Hseen; [apply IH|].
    constructor; [|apply IH].
    rewrite elem_of_dict_keys, elem_of_cons. intros [_ Hn]. apply Hn. auto.
Qed.

(** [get_available_columns] lists the labels in ascending order, each
    once, and a label is in the list exactly when it resolves: every entry
    offered for selection is accepted by [_get_internal_name], and nothing
    else is. *)
Theorem available_columns_sorted_and_complete :
  StronglySorted String.le get_available_columns
  ∧ NoDup get_available_columns
  ∧ (∀ label, label ∈ get_available_columns ↔ is_Some (_get_internal_name label)).
Proof.
  unfold get_available_columns. split_and!.
  - apply StronglySorted_merge_sort; apply _.
  - rewrite merge_sort_Permutation. apply NoDup_dict_keys.
  - intros label. rewrite merge_sort_Permutation, elem_of_dict_keys.
    fold display_labels.
    rewrite <- not_eq_None_Some, resolve_None.
    split.
    + intros [Hin _] Hn. done.
    + intros Hn. split; [|apply not_elem_of_nil].
      by destruct (decide (label ∈ display_labels)).
Qed.

Global Instance column_info_eq_dec : EqDecision column_info.
Proof. solve_decision. Defined.

(** Labels and identifiers are in one-to-one correspondence: every entry
    of [COLUMN_CONFIG] is found again through its label, with its own type,
    and a label resolves only to the entry that carries it. *)
Theorem catalog_round_trip :
  (∀ id info,
     (id, info) ∈ COLUMN_CONFIG →
     _get_internal_name (info_label info) = Some id
     ∧ config_get id COLUMN_CONFIG = Some info
     ∧ _get_column_type id = info_type info)
  ∧ (∀ label id,
       _get_internal_name label = Some id →
       ∃ info, config_get id COLUMN_CONFIG = Some info ∧ info_label info = label).
Proof.
  split.
  - intros id info Hin.
    assert (forallb (λ kv : string * column_info,
              bool_decide (_get_internal_name (info_label kv.2) = Some kv.1)
              && bool_decide (config_get kv.1 COLUMN_CONFIG = Some kv.2))
              COLUMN_CONFIG = true) as Hall.
    { vm_compute. reflexivity. }
    rewrite forallb_forall in Hall. apply list_elem_of_In, Hall in Hin.
    apply andb_prop in Hin as [H1%bool_decide_eq_true H2%bool_decide_eq_true].
    cbn [fst snd] in *. split_and!; [done|done|].
    unfold _get_column_type. by rewrite H2.
  - intros label id H.
    apply (catalog_forall1
             (λ l v, match config_get v COLUMN_CONFIG with
                     | Some info => bool_decide (info_label info = l)
                     | None => false
                     end)) in H; [|vm_compute; reflexivity].
    destruct (config_get id COLUMN_CONFIG) as [info|]; [|done].
    exists info. split; [done|]. by apply bool_decide_eq_true in H.
Qed.

Lemma catalog_round_trip_witness :
  _get_internal_name (info_label (mkInfo "범주형" "지역명 (시군구)"))
    = Some "REGION.RegionName"
  ∧ config_get "REGION.RegionName" COLUMN_CONFIG = Some (mkInfo "범주형" "지역명 (시군구)")
  ∧ _get_column_type "REGION.RegionName" = info_type (mkInfo "범주형" "지역명 (시군구)").
Proof.
  apply (proj1 catalog_round_trip). vm_compute. find_elem.
Defined.

(** [_get_column_type] answers '알 수 없음' exactly for an identifier that
    is not a key of [COLUMN_CONFIG]; every identifier a label resolves to
    has one of the three types. *)
Theorem column_type_unknown_iff_absent (id : string) :
  (_get_column_type id = "알 수 없음" ↔ config_get id COLUMN_CONFIG = None)
  ∧ (∀ label, _get_internal_name label = Some id →
       _get_column_type id ∈ ["범주형"; "수치형"; "시간형"]).
Proof.
  split.
  - unfold _get_column_type.
    destruct (config_get id COLUMN_CONFIG) as [info|] eqn:Hget; [|done].
    split; [|done]. intros Hty. exfalso.
    apply config_get_Some in Hget.
    assert (forallb (λ kv : string * column_info,
              negb (String.eqb (info_type kv.2) "알 수 없음")) COLUMN_CONFIG = true)
      as Hall by (vm_compute; reflexivity).
    rewrite forallb_forall in Hall. apply list_elem_of_In, Hall in Hget.
    cbn [snd] in Hget. rewrite Hty in Hget. by vm_compute in Hget.
  - intros label H.
    apply (catalog_forall1
             (λ _ v, bool_decide (_get_column_type v ∈ ["범주형"; "수치형"; "시간형"]))) in H;
      [|vm_compute; reflexivity].
    by apply bool_decide_eq_true in H.
Qed.

Lemma column_type_unknown_witness :
  _get_column_type "ACCIDENT.OccurYearMonth" ∈ ["범주형"; "수치형"; "시간형"].
Proof.
  apply (proj2 (column_type_unknown_iff_absent "ACCIDENT.OccurYearMonth") "발생년월").
  vm_compute. reflexivity.
Defined.

(** The not-found message tells the caller exactly that a label did not
    resolve: it is returned if and only if one of the two labels is not a
    display label. *)
Theorem not_found_iff_unresolved (W : World) (label1 label2 : string) :
  (generate_visualization W label1 label2).2 = inr (None, not_found_message)
  ↔ label1 ∉ display_labels ∨ label2 ∉ display_labels.
Proof.
  rewrite <- !resolve_None. split.
  - destruct (_get_internal_name label1) as [v1|] eqn:R1; [|auto].
    destruct (_get_internal_name label2) as [v2|] eqn:R2; [|auto].
    destruct (generate_outcome W _ _ _ _ R1 R2) as (t & r & -> & Hout).
    cbn [snd]. intros [= ->]. exfalso.
    inversion Hout as [ | | p e ? ? ? Hm | p df0 | p df0 t' df e ? ? ? ? ? ? ? ? Hm| ];
      try discriminate; vm_compute in Hm; discriminate.
  - intros H. by rewrite generate_unresolved.
Qed.

(** ** Identifiers *)

Lemma length_str_split (sep : ascii) (s : string) :
  length (str_split sep s) = S (count_char sep s).
Proof.
  induction s as [|c r IH]; [done|]. cbn [str_split count_char].
  destruct (Ascii.eqb c sep); cbn [length]; [by rewrite IH|].
  destruct (str_split sep r) as [|h t]; [done|]. cbn in *. lia.
Qed.

Lemma split_one_dot (var : string) :
  count_char "." var = 1%nat → ∃ t c, str_split "." var = [t; c].
Proof.
  intros H. pose proof (length_str_split "." var) as Hlen. rewrite H in Hlen.
  destruct (str_split "." var) as [|t [|c [|]]]; try done. eauto.
Qed.

Lemma unpack_not_one_dot (var : string) :
  count_char "." var ≠ 1%nat →
  ∃ msg, unpack2 (str_split "." var) = ([], inl (Exn "ValueError" msg)).
Proof.
  intros H. pose proof (length_str_split "." var) as Hlen.
  destruct (str_split "." var) as [|t [|c [|]]]; cbn in *; try by eexists.
  exfalso. apply H. lia.
Qed.



Section Malformed.

Context (W : World).

Ltac bad_first H :=
  destruct (unpack_not_one_dot _ H) as (msg & Hu); exists msg;
  rewrite Hu; reflexivity.

Ltac bad_second H1 H2 :=
  destruct (split_one_dot _ H1) as (t & c & Hs);
  destruct (unpack_not_one_dot _ H2) as (msg & Hu); exists msg;
  rewrite Hs; cbn [unpack2]; rewrite ret_bind; cbn beta iota;
  rewrite Hu; reflexivity.

(** An identifier that does not hold exactly one dot makes every routine,
    and the clause builder, raise [ValueError] at once: nothing is logged,
    no query is sent, no chart is built. *)
Theorem malformed_identifier_raises_before_query
    (var1 var2 label1 label2 num_label : string)
    (num_var agg_func : option string) :
  count_char "." var1 ≠ 1%nat ∨ count_char "." var2 ≠ 1%nat →
  (∃ msg, _build_query_components var1 var2 agg_func
            = ([], inl (Exn "ValueError" msg)))
  ∧ (∃ msg, _create_bar_chart W var1 var2 label1 label2
              = ([], inl (Exn "ValueError" msg)))
  ∧ (∃ msg, _create_line_chart W var1 var2 label1 label2
              = ([], inl (Exn "ValueError" msg)))
  ∧ (∃ msg, _create_grouped_bar_chart W var1 var2 num_var label1 label2 num_label
              = ([], inl (Exn "ValueError" msg)))
  ∧ (∃ msg, _create_bubble_chart W var1 var2 label1 label2
              = ([], inl (Exn "ValueError" msg)))
  ∧ (∃ msg, _create_multi_line_chart W var1 var2 num_var label1 label2 num_label
              = ([], inl (Exn "ValueError" msg))).
Proof.
  intros Hbad.
  destruct (decide (count_char "." var1 = 1%nat)) as [H1|H1].
  - destruct Hbad as [?|H2]; [done|].
    unfold _create_bar_chart, _create_line_chart, _create_grouped_bar_chart,
      _create_bubble_chart, _create_multi_line_chart, _build_query_components.
    split_and!; bad_second H1 H2.
  - unfold _create_bar_chart, _create_line_chart, _create_grouped_bar_chart,
      _create_bubble_chart, _create_multi_line_chart, _build_query_components.
    split_and!; bad_first H1.
Qed.

(** The grouped-bar and the multi-line routine, given no aggregate field
    ([None], what a failed lookup returns), raise [AttributeError] before any
    query is sent. *)
Theorem missing_aggregate_field_raises
    (var1 var2 label1 label2 num_label : string) :
  count_char "." var1 = 1%nat → count_char "." var2 = 1%nat →
  _create_grouped_bar_chart W var1 var2 None label1 label2 num_label
    = ([], inl (Exn "AttributeError" "'NoneType' object has no attribute 'split'"))
  ∧ _create_multi_line_chart W var1 var2 None label1 label2 num_label
    = ([], inl (Exn "AttributeError" "'NoneType' object has no attribute 'split'")).
Proof.
  intros H1 H2.
  destruct (split_one_dot _ H1) as (t1 & c1 & Hs1).
  destruct (split_one_dot _ H2) as (t2 & c2 & Hs2).
  unfold _create_grouped_bar_chart, _create_multi_line_chart.
  rewrite Hs1, Hs2. cbn [unpack2]. repeat (rewrite ret_bind; cbn beta iota). done.
Qed.

End Malformed.

Lemma malformed_identifier_witness :
  (∃ msg, _build_query_components "DeathCount" "ACCIDENT.DayNight" (Some "SUM")
            = ([], inl (Exn "ValueError" msg)))
  ∧ (∃ msg, _create_bar_chart store_down "DeathCount" "ACCIDENT.DayNight" "a" "b"
              = ([], inl (Exn "ValueError" msg)))
  ∧ (∃ msg, _create_line_chart store_down "DeathCount" "ACCIDENT.DayNight" "a" "b"
              = ([], inl (Exn "ValueError" msg)))
  ∧ (∃ msg, _create_grouped_bar_chart store_down "DeathCount" "ACCIDENT.DayNight"
              None "a" "b" "c"
              = ([], inl (Exn "ValueError" msg)))
  ∧ (∃ msg, _create_bubble_chart store_down "DeathCount" "ACCIDENT.DayNight" "a" "b"
              = ([], inl (Exn "ValueError" msg)))
  ∧ (∃ msg, _create_multi_line_chart store_down "DeathCount" "ACCIDENT.DayNight"
              None "a" "b" "c"
              = ([], inl (Exn "ValueError" msg))).
Proof.
  apply malformed_identifier_raises_before_query. left. vm_compute. lia.
Defined.

Lemma missing_aggregate_field_witness :
  _create_grouped_bar_chart store_down "ACCIDENT.DayNight" "DRIVER.Gender" None
      "주야" "운전자 성별" "사고건수"
    = ([], inl (Exn "AttributeError" "'NoneType' object has no attribute 'split'"))
  ∧ _create_multi_line_chart store_down "ACCIDENT.DayNight" "DRIVER.Gender" None
      "주야" "운전자 성별" "사고건수"
    = ([], inl (Exn "AttributeError" "'NoneType' object has no attribute 'split'")).
Proof.
  apply missing_aggregate_field_raises; reflexivity.
Defined.

(** ** The temporal fix-up, row by row *)

Section EveryRow.

Context (W : World).

(** A line chart is drawn over as many rows as the store returned, under
    the same column names, whether or not the months could be converted. *)
Theorem line_chart_keeps_every_row
    (time_var num_var time_label num_label : string) t1 c1 t2 c2 fig title :
  str_split "." time_var = [t1; c1] → str_split "." num_var = [t2; c2] →
  (_create_line_chart W time_var num_var time_label num_label).2
    = inr (Some fig, title) →
  ∃ df0, read_sql W (line_sql t1 c1 t2 c2 num_var) = inr df0
         ∧ columns (px_data (fig_call fig)) = columns df0
         ∧ length (rows (px_data (fig_call fig))) = length (rows df0).
Proof.
  intros H1 H2. rewrite (line_chart_plan W _ _ _ _ _ _ _ _ H1 H2).
  destruct (run_plan_eq W (line_plan W t1 c1 t2 c2 num_var time_label num_label))
    as [(e & Hsql & ->)|[(df0 & r & Hsql & Hg & ->)|
        (df0 & t & df & Hsql & Hg & Hpr & Hq & Hpl & ->)]];
    [intros df; apply lenient_convert_quiet | done | done |].
  cbn [snd]. destruct (px_fault W _); [done|]. intros [= <- <-].
  exists df0. split; [done|]. cbn.
  destruct (lenient_convert_shape W _ _ _ _ Hpr) as (Hc & Hr & _). by split.
Qed.

End EveryRow.

Lemma line_chart_keeps_every_row_witness :
  ∃ df0, read_sql (world_of monthly_frame)
           (line_sql "ACCIDENT" "OccurYearMonth" "ACCIDENT" "DeathCount"
              "ACCIDENT.DeathCount") = inr df0
         ∧ columns (px_data (fig_call (new_figure
             (line_call {| columns := ["OccurYearMonth"; "Value"];
                           rows := [[VTime 2022 1; VInt 7]; [VTime 2022 2; VInt 3]] |}
                "OccurYearMonth" "발생년월" "사망자수")))) = columns df0
         ∧ length (rows (px_data (fig_call (new_figure
             (line_call {| columns := ["OccurYearMonth"; "Value"];
                           rows := [[VTime 2022 1; VInt 7]; [VTime 2022 2; VInt 3]] |}
                "OccurYearMonth" "발생년월" "사망자수"))))) = length (rows df0).
Proof.
  apply (line_chart_keeps_every_row (world_of monthly_frame)
           "ACCIDENT.OccurYearMonth" "ACCIDENT.DeathCount" "발생년월" "사망자수"
           "ACCIDENT" "OccurYearMonth" "ACCIDENT" "DeathCount" _
           (line_title "발생년월" "사망자수")); reflexivity.
Defined.

(** ** The clause builder and the SQL text *)






Section Independence.

Context (W W' : World).

Ltac failed_unpack :=
  repeat match goal with
  | H : unpack2 _ = ([], inl _) |- _ => rewrite H
  | H : str_split "." _ = [_; _] |- _ => rewrite H
  end;
  cbn [unpack2 opt_split_dot]; repeat (rewrite ret_bind; cbn beta iota);
  repeat match goal with
  | H : unpack2 _ = ([], inl _) |- _ => rewrite H
  end; reflexivity.

(** The SQL text a routine sends is a function of the identifiers alone:
    neither the display labels passed along nor what the store and plotly
    answer change it.  In particular no label text ever reaches the
    store. *)
Theorem sql_depends_on_identifiers_only
    (var1 var2 : string) (num_var : option string)
    (label1 label2 num_label label1' label2' num_label' : string) :
  queries (_create_bar_chart W var1 var2 label1 label2).1
    = queries (_create_bar_chart W' var1 var2 label1' label2').1
  ∧ queries (_create_line_chart W var1 var2 label1 label2).1
    = queries (_create_line_chart W' var1 var2 label1' label2').1
  ∧ queries (_create_grouped_bar_chart W var1 var2 num_var label1 label2 num_label).1
    = queries (_create_grouped_bar_chart W' var1 var2 num_var label1' label2' num_label').1
  ∧ queries (_create_bubble_chart W var1 var2 label1 label2).1
    = queries (_create_bubble_chart W' var1 var2 label1' label2').1
  ∧ queries (_create_multi_line_chart W var1 var2 num_var label1 label2 num_label).1
    = queries (_create_multi_line_chart W' var1 var2 num_var label1' label2' num_label').1.
Proof.
  destruct (unpack2_cases (str_split "." var1)) as [(t1 & c1 & H1)|(e1 & H1)].
  2:{ unfold _create_bar_chart, _create_line_chart, _create_grouped_bar_chart,
        _create_bubble_chart, _create_multi_line_chart, _build_query_components.
      split_and!; failed_unpack. }
  destruct (unpack2_cases (str_split "." var2)) as [(t2 & c2 & H2)|(e2 & H2)].
  2:{ unfold _create_bar_chart, _create_line_chart, _create_grouped_bar_chart,
        _create_bubble_chart, _create_multi_line_chart, _build_query_components.
      split_and!; failed_unpack. }
  assert (∀ l1 l2 nl l1' l2' nl',
            queries (_create_grouped_bar_chart W var1 var2 num_var l1 l2 nl).1
              = queries (_create_grouped_bar_chart W' var1 var2 num_var l1' l2' nl').1
            ∧ queries (_create_multi_line_chart W var1 var2 num_var l1 l2 nl).1
              = queries (_create_multi_line_chart W' var1 var2 num_var l1' l2' nl').1)
    as Hthree.
  { intros l1 l2 nl l1' l2' nl'. destruct num_var as [nv|].
    2:{ unfold _create_grouped_bar_chart, _create_multi_line_chart.
        split; failed_unpack. }
    destruct (unpack2_cases (str_split "." nv)) as [(t3 & c3 & H3)|(e3 & H3)].
    2:{ unfold _create_grouped_bar_chart, _create_multi_line_chart.
        split; failed_unpack. }
    by rewrite !(grouped_bar_chart_queries _ _ _ _ _ _ _ _ _ _ _ _ _ H1 H2 H3),
      !(multi_line_chart_queries _ _ _ _ _ _ _ _ _ _ _ _ _ H1 H2 H3). }
  rewrite !(bar_chart_queries _ _ _ _ _ _ _ _ _ H1 H2),
    !(line_chart_queries _ _ _ _ _ _ _ _ _ H1 H2),
    !(bubble_chart_queries _ _ _ _ _ _ _ _ _ H1 H2).
  split_and!; try done; apply Hthree.
Qed.

End Independence.

(** ** When a chart is returned *)

(** Two resolved labels whose type pair is in the dispatch table - other
    than two numeric labels that include the accident count - make
    [generate_visualization] send exactly one query.  If the store raises on
    it, the failure carries the store's exception.  If the store answers,
    either the answer is empty and the two labels are numeric, and the
    failure is the no-data one, or exactly one plotly call is made: when
    plotly raises on that call the failure carries plotly's exception, and
    otherwise the figure of that very call is returned. *)
Theorem chart_is_returned (W : World) label1 label2 var1 var2 :
  _get_internal_name label1 = Some var1 →
  _get_internal_name label2 = Some var2 →
  in_dispatch_table (_get_column_type var1) (_get_column_type var2) = true →
  "사고건수" ∉ [label1; label2] ∨ _get_column_type var1 ≠ "수치형"
    ∨ _get_column_type var2 ≠ "수치형" →
  ∃ q,
    queries (generate_visualization W label1 label2).1 = [q]
    ∧ match read_sql W q with
      | inl e =>
          plots (generate_visualization W label1 label2).1 = []
          ∧ (generate_visualization W label1 label2).2
            = inr (None, error_prefix +:+ exn_str e)
      | inr df0 =>
          (_get_column_type var1 = "수치형" ∧ _get_column_type var2 = "수치형"
           ∧ df_empty df0 = true
           ∧ plots (generate_visualization W label1 label2).1 = []
           ∧ (generate_visualization W label1 label2).2 = inr (None, no_data_message))
          ∨ ∃ c,
              plots (generate_visualization W label1 label2).1 = [px_fn c]
              ∧ match px_fault W c with
                | Some e =>
                    (generate_visualization W label1 label2).2
                      = inr (None, error_prefix +:+ exn_str e)
                | None =>
                    ∃ fig title,
                      (generate_visualization W label1 label2).2
                        = inr (Some fig, title)
                      ∧ fig_call fig = c
                end
      end.
Proof.
  intros R1 R2 Htab Hcount.
  destruct (generate_outcome W _ _ _ _ R1 R2) as (t & r & -> & Hout).
  cbn [fst snd]. change (queries (Log INFO ?m :: ?t)) with (queries t).
  change (plots (Log INFO ?m :: ?t)) with (plots t).
  destruct Hout as [ Hno | T1 T2 Hin | p e _ Hp Hsql | p df0 T1 T2 Hp Hsql Hemp
                   | p df0 t df e _ Hp Hsql Hg Hpr Hq Hpl Hf
                   | p df0 t df _ Hp Hsql Hg Hpr Hq Hpl Hf ].
  - congruence.
  - destruct Hcount as [Hc|[Hc|Hc]]; [destruct (Hc Hin)|destruct (Hc T1)|destruct (Hc T2)].
  - exists (p_sql p). split; [reflexivity|]. rewrite Hsql. split; reflexivity.
  - exists (p_sql p). split; [reflexivity|]. rewrite Hsql. left.
    split_and!; [exact T1|exact T2|exact Hemp|reflexivity|reflexivity].
  - exists (p_sql p). rewrite !queries_app, !plots_app, queries_fetched, plots_fetched, Hq, Hpl.
    split; [reflexivity|]. rewrite Hsql. right. exists (p_call p df).
    split; [reflexivity|]. rewrite Hf. reflexivity.
  - exists (p_sql p). rewrite !queries_app, !plots_app, queries_fetched, plots_fetched, Hq, Hpl.
    split; [reflexivity|]. rewrite Hsql. right. exists (p_call p df).
    split; [reflexivity|]. rewrite Hf. eexists _, _. split; [reflexivity|].
    destruct Hp as (_ & _ & _ & Hpost & _).
    exact (proj1 (Hpost (new_figure (p_call p df)))).
Qed.

Lemma chart_is_returned_witness :
  ∃ q,
    queries (generate_visualization (world_of day_gender_frame) "주야" "운전자 성별").1
      = [q]
    ∧ match read_sql (world_of day_gender_frame) q with
      | inl e =>
          plots (generate_visualization (world_of day_gender_frame)
                   "주야" "운전자 성별").1 = []
          ∧ (generate_visualization (world_of day_gender_frame) "주야" "운전자 성별").2
            = inr (None, error_prefix +:+ exn_str e)
      | inr df0 =>
          (_get_column_type "ACCIDENT.DayNight" = "수치형"
           ∧ _get_column_type "DRIVER.Gender" = "수치형"
           ∧ df_empty df0 = true
           ∧ plots (generate_visualization (world_of day_gender_frame)
                      "주야" "운전자 성별").1 = []
           ∧ (generate_visualization (world_of day_gender_frame) "주야" "운전자 성별").2
             = inr (None, no_data_message))
          ∨ ∃ c,
              plots (generate_visualization (world_of day_gender_frame)
                       "주야" "운전자 성별").1 = [px_fn c]
              ∧ match px_fault (world_of day_gender_frame) c with
                | Some e =>
                    (generate_visualization (world_of day_gender_frame)
                       "주야" "운전자 성별").2
                      = inr (None, error_prefix +:+ exn_str e)
                | None =>
                    ∃ fig title,
                      (generate_visualization (world_of day_gender_frame)
                         "주야" "운전자 성별").2
                        = inr (Some fig, title)
                      ∧ fig_call fig = c
                end
      end.
Proof.
  apply (chart_is_returned (world_of day_gender_frame) "주야" "운전자 성별"
           "ACCIDENT.DayNight" "DRIVER.Gender");
    try (vm_compute; reflexivity).
  left. apply (bool_decide_unpack _). vm_compute. exact I.
Defined.

(** Day or night against the driver's gender: one query over both tables
    and the grouped bar chart of the store's answer. *)
Example day_gender_chart :
  queries (generate_visualization (world_of day_gender_frame) "주야" "운전자 성별").1
    = ["SELECT ACCIDENT.DayNight, DRIVER.Gender, COUNT(ACCIDENT.AccidentID) AS Value FROM ACCIDENT  JOIN DRIVER ON ACCIDENT.AccidentID = DRIVER.AccidentID GROUP BY ACCIDENT.DayNight, DRIVER.Gender"]
  ∧ (generate_visualization (world_of day_gender_frame) "주야" "운전자 성별").2
    = inr (Some (new_figure (grouped_call day_gender_frame "DayNight" "Gender"
                               "주야" "운전자 성별" "사고건수")),
           grouped_title "주야" "운전자 성별" "사고건수").
Proof. split; vm_compute; reflexivity. Qed.
